(** * A booking-and-commerce backend: appointments, listing, checkout

    Shallow embedding of [main.py] and [schemas.py].  Python dictionaries are
    association lists in insertion order, Python [int]s are [Z], the Mongo
    database is a finite map from collection names to the documents of each
    collection, and a request handler is a computation over the database that
    either returns a value or raises an [HTTPException]. *)

From Stdlib Require Import ZArith NArith List Ascii String Lia.
From Stdlib Require Import DecimalString.
From stdpp Require Import base option list strings gmap.

Local Open Scope Z_scope.

(** ** Rendering numbers as text *)

Module Render.

(** Decimal digits of an integer, as Python's [str(int)] prints them. *)
Definition dec_of_N (n : N) : string :=
  NilZero.string_of_uint (N.to_uint n).

Definition dec_of_Z (z : Z) : string :=
  NilZero.string_of_int (Z.to_int z).

(** [zfill w s]: [s] padded with zeros on the left up to width [w]. *)
Definition zfill (w : nat) (s : string) : string :=
  String.concat "" (repeat "0" (w - String.length s)) +:+ s.

(** The [%0wd] format of a non-negative number. *)
Definition dec_pad (w : nat) (n : N) : string := zfill w (dec_of_N n).

Definition hex_digit (n : N) : ascii :=
  match n with
  | 0%N => "0" | 1%N => "1" | 2%N => "2" | 3%N => "3"
  | 4%N => "4" | 5%N => "5" | 6%N => "6" | 7%N => "7"
  | 8%N => "8" | 9%N => "9" | 10%N => "a" | 11%N => "b"
  | 12%N => "c" | 13%N => "d" | 14%N => "e" | _ => "f"
  end%char.

(** The [w] low hexadecimal digits of [n], most significant first. *)
Fixpoint hex_pad (w : nat) (n : N) : string :=
  match w with
  | O => ""
  | S w' => hex_pad w' (n / 16)%N +:+ String (hex_digit (n mod 16)%N) ""
  end.

End Render.

(** ** Values held by documents *)

(** A bson [ObjectId] is twelve bytes; it is kept as the number they spell. *)
Definition ObjectId := N.

(** A naive [datetime.datetime], as pymongo hands stored timestamps back. *)
Record datetime := {
  year : N; month : N; day : N;
  hour : N; minute : N; second : N; microsecond : N
}.

#[local] Set Warnings "-register-all".

Inductive value :=
| VNone
| VBool (b : bool)
| VInt (z : Z)
| VStr (s : string)
| VObjectId (o : ObjectId)
| VDatetime (t : datetime)
| VList (l : list value)
| VDict (d : list (string * value)).

Arguments VObjectId o%_N.

(** A Python [dict] with string keys, in insertion order. *)
Abbreviation dict := (list (string * value)).

(** ** The Python built-ins the handlers call *)

Module Py.
Import Render.

(** [datetime.isoformat(sep)]. *)
Definition isoformat_sep (sep : string) (t : datetime) : string :=
  dec_pad 4 (year t) +:+ "-" +:+ dec_pad 2 (month t) +:+ "-" +:+ dec_pad 2 (day t)
  +:+ sep
  +:+ dec_pad 2 (hour t) +:+ ":" +:+ dec_pad 2 (minute t) +:+ ":" +:+ dec_pad 2 (second t)
  +:+ (if (microsecond t =? 0)%N then "" else "." +:+ dec_pad 6 (microsecond t)).

Definition isoformat : datetime → string := isoformat_sep "T".

(** [repr] of a [datetime]: trailing zero microsecond and second are dropped. *)
Definition repr_datetime (t : datetime) : string :=
  "datetime.datetime(" +:+ dec_of_N (year t) +:+ ", " +:+ dec_of_N (month t)
  +:+ ", " +:+ dec_of_N (day t) +:+ ", " +:+ dec_of_N (hour t)
  +:+ ", " +:+ dec_of_N (minute t)
  +:+ (if (microsecond t =? 0)%N
       then (if (second t =? 0)%N then "" else ", " +:+ dec_of_N (second t))
       else ", " +:+ dec_of_N (second t) +:+ ", " +:+ dec_of_N (microsecond t))
  +:+ ")".

Definition squote : ascii := "'"%char.
Definition dquote : ascii := ascii_of_nat 34.
Definition bslash : ascii := ascii_of_nat 92.

Fixpoint contains (c : ascii) (s : string) : bool :=
  match s with
  | EmptyString => false
  | String x s' => Ascii.eqb x c || contains c s'
  end.

(** [repr] of one character of a [str], for the chosen quote.  Characters
    are code points below 256. *)
Definition repr_char (quote c : ascii) : string :=
  let n := N_of_ascii c in
  if Ascii.eqb c quote || Ascii.eqb c bslash then String bslash (String c "")
  else if (n =? 9)%N then String bslash "t"
  else if (n =? 10)%N then String bslash "n"
  else if (n =? 13)%N then String bslash "r"
  else if (n <? 32)%N || (n =? 127)%N
          || ((128 <=? n)%N && (n <=? 160)%N) || (n =? 173)%N
       then String bslash "x" +:+ hex_pad 2 n
  else String c "".

Fixpoint repr_chars (quote : ascii) (s : string) : string :=
  match s with
  | EmptyString => ""
  | String c s' => repr_char quote c +:+ repr_chars quote s'
  end.

Definition repr_str (s : string) : string :=
  let quote := if contains squote s && negb (contains dquote s)
               then dquote else squote in
  String quote (repr_chars quote s) +:+ String quote "".

(** [str(ObjectId)]: twenty-four hexadecimal digits. *)
Definition oid_hex (o : ObjectId) : string := hex_pad 24 o.

Fixpoint repr (v : value) : string :=
  match v with
  | VNone => "None"
  | VBool b => if b then "True" else "False"
  | VInt z => dec_of_Z z
  | VStr s => repr_str s
  | VObjectId o => "ObjectId('" +:+ oid_hex o +:+ "')"
  | VDatetime t => repr_datetime t
  | VList l => "[" +:+ String.concat ", " (List.map repr l) +:+ "]"
  | VDict d =>
      "{" +:+ String.concat ", "
                (List.map (fun '(k, x) => repr_str k +:+ ": " +:+ repr x) d)
      +:+ "}"
  end.

(** [str(v)]. *)
Definition str (v : value) : string :=
  match v with
  | VStr s => s
  | VObjectId o => oid_hex o
  | VDatetime t => isoformat_sep " " t
  | _ => repr v
  end.

(** [isinstance(v, datetime)]. *)
Definition is_datetime (v : value) : bool :=
  match v with VDatetime _ => true | _ => false end.

(** Truth value of a [str], of an optional [str] and of a [dict]. *)
Definition truthy_str (s : string) : bool :=
  match s with EmptyString => false | _ => true end.

Definition truthy_opt_str (o : option string) : bool :=
  match o with None => false | Some s => truthy_str s end.

Definition truthy_dict (d : dict) : bool :=
  match d with [] => false | _ => true end.

Definition truthy_opt_dict (o : option dict) : bool :=
  match o with None => false | Some d => truthy_dict d end.

(** [sum(...)] over Python integers. *)
Definition sum (l : list Z) : Z := fold_left Z.add l 0.

End Py.

(** ** Dictionary operations *)

Module Dict.

(** [d.get(k)] / [k in d]. *)
Fixpoint get (k : string) (d : dict) : option value :=
  match d with
  | [] => None
  | (k', v) :: d' => if String.eqb k' k then Some v else get k d'
  end.

Definition mem (k : string) (d : dict) : bool :=
  match get k d with Some _ => true | None => false end.

(** [d[k] = v]: an existing key keeps its place, a new one goes last. *)
Fixpoint set (k : string) (v : value) (d : dict) : dict :=
  match d with
  | [] => [(k, v)]
  | (k', v') :: d' =>
      if String.eqb k' k then (k, v) :: d' else (k', v') :: set k v d'
  end.

(** [d.pop(k)]: the dictionary that is left. *)
Fixpoint remove (k : string) (d : dict) : dict :=
  match d with
  | [] => []
  | (k', v') :: d' =>
      if String.eqb k' k then remove k d' else (k', v') :: remove k d'
  end.

(** Replace every value [v] by [f v], keys and order kept. *)
Definition map_values (f : value → value) (d : dict) : dict :=
  List.map (fun '(k, v) => (k, f v)) d.

End Dict.

(** ** Equality of stored values *)

Definition datetime_eqb (a b : datetime) : bool :=
  ((year a =? year b) && (month a =? month b) && (day a =? day b)
   && (hour a =? hour b) && (minute a =? minute b) && (second a =? second b)
   && (microsecond a =? microsecond b))%N.

(** Equality of two values as a Mongo equality match decides it: embedded
    documents agree field by field, in the same order. *)
Fixpoint value_eqb (a b : value) : bool :=
  match a, b with
  | VNone, VNone => true
  | VBool x, VBool y => Bool.eqb x y
  | VInt x, VInt y => (x =? y)%Z
  | VStr x, VStr y => String.eqb x y
  | VObjectId x, VObjectId y => (x =? y)%N
  | VDatetime x, VDatetime y => datetime_eqb x y
  | VList x, VList y =>
      (fix go (x y : list value) : bool :=
         match x, y with
         | [], [] => true
         | u :: x', v :: y' => value_eqb u v && go x' y'
         | _, _ => false
         end) x y
  | VDict x, VDict y =>
      (fix go (x y : dict) : bool :=
         match x, y with
         | [], [] => true
         | (j, u) :: x', (k, v) :: y' => String.eqb j k && value_eqb u v && go x' y'
         | _, _ => false
         end) x y
  | _, _ => false
  end.

(** ** schemas.py *)

(** A pydantic model is anything that can be dumped to a dictionary. *)
Class BaseModel (A : Type) := model_dump : A → dict.

Definition of_opt_str (o : option string) : value :=
  match o with Some s => VStr s | None => VNone end.

Definition of_opt_datetime (o : option datetime) : value :=
  match o with Some t => VDatetime t | None => VNone end.

Module Appointment.
Record t := {
  user_id : string;
  service_id : string;
  service_title : string;
  start_time_iso : string;
  duration_minutes : Z;
  status : string;
  order_id : option string
}.

(** [Appointment(user_id=…, service_id=…, service_title=…,
    start_time_iso=…, duration_minutes=…)]: the two fields left out take
    the defaults of the schema. *)
Definition new (user_id service_id service_title start_time_iso : string)
    (duration_minutes : Z) : t :=
  {| user_id := user_id; service_id := service_id;
     service_title := service_title; start_time_iso := start_time_iso;
     duration_minutes := duration_minutes;
     status := "scheduled"; order_id := None |}.

#[global] Instance dump : BaseModel t := fun a =>
  [("user_id", VStr (user_id a)); ("service_id", VStr (service_id a));
   ("service_title", VStr (service_title a));
   ("start_time_iso", VStr (start_time_iso a));
   ("duration_minutes", VInt (duration_minutes a));
   ("status", VStr (status a)); ("order_id", of_opt_str (order_id a))].
End Appointment.

Module OrderItem.
(** [quantity] is 1 when a request leaves it out. *)
Record t := {
  service_id : string;
  service_title : string;
  quantity : Z;
  price_cents : Z
}.

#[global] Instance dump : BaseModel t := fun i =>
  [("service_id", VStr (service_id i)); ("service_title", VStr (service_title i));
   ("quantity", VInt (quantity i)); ("price_cents", VInt (price_cents i))].
End OrderItem.

Module Order.
Record t := {
  user_id : string;
  items : list OrderItem.t;
  amount_cents : Z;
  status : string;
  stripe_session_id : option string;
  stripe_payment_intent : option string;
  paid_at : option datetime
}.

(** [Order(user_id=…, items=…, amount_cents=…)], the rest by default. *)
Definition new (user_id : string) (items : list OrderItem.t) (amount_cents : Z) : t :=
  {| user_id := user_id; items := items; amount_cents := amount_cents;
     status := "pending"; stripe_session_id := None;
     stripe_payment_intent := None; paid_at := None |}.

#[global] Instance dump : BaseModel t := fun o =>
  [("user_id", VStr (user_id o));
   ("items", VList (List.map (fun i => VDict (model_dump i)) (items o)));
   ("amount_cents", VInt (amount_cents o));
   ("status", VStr (status o));
   ("stripe_session_id", of_opt_str (stripe_session_id o));
   ("stripe_payment_intent", of_opt_str (stripe_payment_intent o));
   ("paid_at", of_opt_datetime (paid_at o))].
End Order.

(** ** Request handlers as computations over the store *)

Record HTTPException := { status_code : Z; detail : string }.

Inductive result (A : Type) :=
| Return (a : A)
| Raise (e : HTTPException).
Arguments Return {A} a.
Arguments Raise {A} e.

(** One access to a collection of the database. *)
Inductive access :=
| Read (collection : string)
| Write (collection : string).

(** The database: the documents of every collection in insertion order, the
    identity the next insert will generate, and the accesses made so far. *)
Record Store := {
  db : gmap string (list dict);
  next_id : ObjectId;
  log : list access
}.

Definition M (A : Type) : Type := Store → result A * Store.

Definition ret {A} (a : A) : M A := fun w => (Return a, w).

Definition raise {A} (e : HTTPException) : M A := fun w => (Raise e, w).

Definition bind {A B} (m : M A) (k : A → M B) : M B := fun w =>
  match m w with
  | (Return a, w') => k a w'
  | (Raise e, w') => (Raise e, w')
  end.

Notation "'let*' x ':=' m 'in' k" := (bind m (fun x => k))
  (at level 10, x name, m at level 100, k at level 200, only parsing).

(** The documents of a collection; a collection never written to is empty. *)
Definition collection (name : string) (w : Store) : list dict := db w !!! name.

(** ** The document store behind [db] *)

Module Mongo.

(** Modelled from the spec: the query of the appointment store for "any
    existing record whose [start_time_iso] equals the requested one".  A
    document matches a filter when it holds every field of the filter with
    an equal value; the empty filter matches every document. *)
Definition matches (filt doc : dict) : bool :=
  forallb (fun '(k, v) =>
             match Dict.get k doc with
             | Some x => value_eqb x v
             | None => false
             end) filt.

(** Modelled from the spec: [db[name].find_one(filt)], one read that gives
    the first matching document, or nothing. *)
Definition find_one (name : string) (filt : dict) : M (option dict) := fun w =>
  (Return (List.find (matches filt) (collection name w)),
   {| db := db w; next_id := next_id w; log := log w ++ [Read name] |}).

(** Modelled from the spec: [db[name].find(filt)], one read that gives the
    matching documents in stored order. *)
Definition find (name : string) (filt : dict) : M (list dict) := fun w =>
  (Return (List.filter (matches filt) (collection name w)),
   {| db := db w; next_id := next_id w; log := log w ++ [Read name] |}).

(** Modelled from the spec: [db[name].insert_one(doc)], the single-record
    insert of the storage interface.  One write: the document is stored
    last in its collection under a generated identity, which is returned.
    The documents handed over never carry an [_id] of their own. *)
Definition insert_one (name : string) (doc : dict) : M ObjectId := fun w =>
  let oid := next_id w in
  (Return oid,
   {| db := <[name := collection name w ++ [("_id", VObjectId oid) :: doc]]> (db w);
      next_id := N.succ oid;
      log := log w ++ [Write name] |}).

End Mongo.

(** ** database.py *)

(** Modelled from the spec: [create_document] of [database.py], a module
    whose source is missing.  It persists the fields of the model as one
    new record and returns the generated identity as a string. *)
Definition create_document {A} `{BaseModel A} (collection_name : string) (data : A)
  : M string :=
  let* inserted_id := Mongo.insert_one collection_name (model_dump data) in
  ret (Py.str (VObjectId inserted_id)).

(** Modelled from the spec: [get_documents] of [database.py], a module
    whose source is missing.  It gives the stored records that match the
    filter, as an ordered sequence. *)
Definition get_documents (collection_name : string) (filter_dict : dict)
  : M (list dict) :=
  Mongo.find collection_name filter_dict.

(** ** main.py *)

(** The body of the loop of [to_public]: a [datetime] becomes its ISO text,
    any other value stays. *)
Definition datetime_to_iso (v : value) : value :=
  match v with
  | VDatetime t => VStr (Py.isoformat t)
  | _ => v
  end.

Definition to_public (doc : dict) : dict :=
  if negb (Py.truthy_dict doc) then doc
  else
    let d := doc in
    let d := match Dict.get "_id" d with
             | Some v => Dict.set "id" (VStr (Py.str v)) (Dict.remove "_id" d)
             | None => d
             end in
    Dict.map_values datetime_to_iso d.

Module CreateAppointmentRequest.
Record t := {
  user_id : string;
  service_id : string;
  service_title : string;
  start_time_iso : string;
  duration_minutes : Z
}.
End CreateAppointmentRequest.

Definition create_appointment (req : CreateAppointmentRequest.t) : M dict :=
  let* conflict := Mongo.find_one "appointment"
                [("start_time_iso", VStr (CreateAppointmentRequest.start_time_iso req))] in
  if Py.truthy_opt_dict conflict then
    raise {| status_code := 400; detail := "Time slot already booked" |}
  else
    let appt := Appointment.new
                  (CreateAppointmentRequest.user_id req)
                  (CreateAppointmentRequest.service_id req)
                  (CreateAppointmentRequest.service_title req)
                  (CreateAppointmentRequest.start_time_iso req)
                  (CreateAppointmentRequest.duration_minutes req) in
    let* appt_id := create_document "appointment" appt in
    ret [("id", VStr appt_id)].

Definition list_appointments (user_id : option string) : M (list dict) :=
  let filt := if Py.truthy_opt_str user_id
              then [("user_id", of_opt_str user_id)]
              else [] in
  let* docs := get_documents "appointment" filt in
  ret (List.map to_public docs).

Module CheckoutRequest.
Record t := {
  user_id : string;
  items : list OrderItem.t
}.
End CheckoutRequest.

Definition create_checkout (req : CheckoutRequest.t) : M dict :=
  let amount := Py.sum (List.map (fun item => OrderItem.price_cents item * OrderItem.quantity item)
                          (CheckoutRequest.items req)) in
  let order := Order.new (CheckoutRequest.user_id req) (CheckoutRequest.items req) amount in
  let* order_id := create_document "order" order in
  ret [("order_id", VStr order_id); ("amount_cents", VInt amount);
       ("stripe_checkout_url", VNone)].

(** ** Vocabulary of the specification *)

(** The error the booking operation answers a taken slot with. *)
Definition ConflictError : HTTPException :=
  {| status_code := 400; detail := "Time slot already booked" |}.

(** The stored appointments. *)
Definition appointments (w : Store) : list dict := collection "appointment" w.

(** The slot of a stored appointment, when it has one. *)
Definition slot_of (doc : dict) : option value := Dict.get "start_time_iso" doc.

(** A stored appointment occupies slot [s]. *)
Definition occupies (s : string) (doc : dict) : Prop := slot_of doc = Some (VStr s).

(** No two stored appointments share a slot. *)
Definition slots_unique (w : Store) : Prop :=
  ∀ a b, a ∈ appointments w → b ∈ appointments w →
         ∀ v, slot_of a = Some v → slot_of b = Some v → a = b.

(** Requests served one after the other; a rejected request leaves the
    store to the next one. *)
Fixpoint serve (reqs : list CreateAppointmentRequest.t) (w : Store) : Store :=
  match reqs with
  | [] => w
  | req :: reqs' => serve reqs' (create_appointment req w).2
  end.

(** A store nothing was written to yet. *)
Definition empty_store : Store := {| db := ∅; next_id := 0%N; log := [] |}.

(** Slot [s] is taken, respectively free, in a store. *)
Definition taken (s : string) (w : Store) : Prop :=
  ∃ d, d ∈ appointments w ∧ occupies s d.

Definition free (s : string) (w : Store) : Prop :=
  ∀ d, d ∈ appointments w → ¬ occupies s d.

(** The record a successful booking stores under identity [oid]. *)
Definition booked (oid : ObjectId) (req : CreateAppointmentRequest.t) : dict :=
  [("_id", VObjectId oid);
   ("user_id", VStr (CreateAppointmentRequest.user_id req));
   ("service_id", VStr (CreateAppointmentRequest.service_id req));
   ("service_title", VStr (CreateAppointmentRequest.service_title req));
   ("start_time_iso", VStr (CreateAppointmentRequest.start_time_iso req));
   ("duration_minutes", VInt (CreateAppointmentRequest.duration_minutes req));
   ("status", VStr "scheduled");
   ("order_id", VNone)].

(** Two requests that agree on every field but [duration_minutes]. *)
Definition differ_only_in_duration (r1 r2 : CreateAppointmentRequest.t) : Prop :=
  CreateAppointmentRequest.user_id r1 = CreateAppointmentRequest.user_id r2
  ∧ CreateAppointmentRequest.service_id r1 = CreateAppointmentRequest.service_id r2
  ∧ CreateAppointmentRequest.service_title r1 = CreateAppointmentRequest.service_title r2
  ∧ CreateAppointmentRequest.start_time_iso r1 = CreateAppointmentRequest.start_time_iso r2.

(** The [user_id] field of a stored record equals [u]. *)
Definition user_is (u : string) (doc : dict) : bool :=
  match Dict.get "user_id" doc with
  | Some (VStr s) => String.eqb s u
  | _ => false
  end.

(** The amount of an order as the specification words it: the sum over the
    items of price times quantity, nothing for no item. *)
Fixpoint sum_of_items (items : list OrderItem.t) : Z :=
  match items with
  | [] => 0
  | item :: rest => OrderItem.price_cents item * OrderItem.quantity item + sum_of_items rest
  end.

(** How many reads, and how many writes, of one collection a trace holds. *)
Definition reads (name : string) (trace : list access) : nat :=
  length (List.filter (fun a => match a with
                                | Read c => String.eqb c name
                                | Write _ => false
                                end) trace).

Definition writes (name : string) (trace : list access) : nat :=
  length (List.filter (fun a => match a with
                                | Write c => String.eqb c name
                                | Read _ => false
                                end) trace).

(** Every access of a trace is to the one collection. *)
Definition only_touches (name : string) (trace : list access) : Prop :=
  ∀ a, a ∈ trace → a = Read name ∨ a = Write name.

(** The outcome and the store a handler leaves. *)
Definition outcome {A} (m : M A) (w : Store) : result A := (m w).1.
Definition after {A} (m : M A) (w : Store) : Store := (m w).2.

(** ** Sample data *)

Module Sample.

Definition request (user start : string) (minutes : Z) : CreateAppointmentRequest.t :=
  {| CreateAppointmentRequest.user_id := user;
     CreateAppointmentRequest.service_id := "svc-1";
     CreateAppointmentRequest.service_title := "Therapy Session";
     CreateAppointmentRequest.start_time_iso := start;
     CreateAppointmentRequest.duration_minutes := minutes |}.

Definition ten : string := "2024-01-01T10:00:00".
Definition ten_and_a_second : string := "2024-01-01T10:00:01".

(** One appointment booked at ten by [ann]. *)
Definition one_booked : Store := after (create_appointment (request "ann" ten 45)) empty_store.

(** Two appointments, of [ann] and of [bob]. *)
Definition two_booked : Store :=
  serve [request "ann" ten 45; request "bob" ten_and_a_second 60] empty_store.

(** A record as a store keeps it when it also stamps the time of creation. *)
Definition stamped : dict :=
  [("_id", VObjectId 7); ("user_id", VStr "ann");
   ("start_time_iso", VStr ten);
   ("created_at", VDatetime {| year := 2024; month := 1; day := 1; hour := 9;
                               minute := 30; second := 0; microsecond := 0 |})].

Definition stamped_store : Store :=
  {| db := {["appointment" := [stamped]]}; next_id := 8%N; log := [] |}.

Definition basket : CheckoutRequest.t :=
  {| CheckoutRequest.user_id := "ann";
     CheckoutRequest.items :=
       [{| OrderItem.service_id := "svc-1"; OrderItem.service_title := "Therapy Session";
           OrderItem.quantity := 2; OrderItem.price_cents := 9000 |};
        {| OrderItem.service_id := "svc-0"; OrderItem.service_title := "Behavior Consultation";
           OrderItem.quantity := 1; OrderItem.price_cents := 15000 |}] |}.

End Sample.

(** ** The other handlers of main.py *)

(** What a handler can raise: an [HTTPException] of its own, the
    [ValidationError] of a pydantic model that refuses a field, or the
    [KeyError] of a subscript on a missing key. *)
Inductive exception :=
| Http (e : HTTPException)
| ValidationError
| KeyError (key : string).

Inductive reply (A : Type) :=
| Replied (a : A)
| Raised (x : exception).
Arguments Replied {A} a.
Arguments Raised {A} x.

Definition H (A : Type) : Type := Store → reply A * Store.

Definition pure {A} (a : A) : H A := fun w => (Replied a, w).

Definition throw {A} (x : exception) : H A := fun w => (Raised x, w).

Definition bindH {A B} (m : H A) (k : A → H B) : H B := fun w =>
  match m w with
  | (Replied a, w') => k a w'
  | (Raised x, w') => (Raised x, w')
  end.

(** A store operation run inside a handler that can raise more. *)
Definition lift {A} (m : M A) : H A := fun w =>
  match m w with
  | (Return a, w') => (Replied a, w')
  | (Raise e, w') => (Raised (Http e), w')
  end.

Notation "'let!' x ':=' m 'in' k" := (bindH m (fun x => k))
  (at level 10, x name, m at level 100, k at level 200, only parsing).

(** [for x in l: body(x)]. *)
Fixpoint for_each {A B} (l : list A) (body : A → M B) : M unit :=
  match l with
  | [] => ret tt
  | x :: l' => let* _ := body x in for_each l' body
  end.

(** [d[k]]. *)
Definition subscript (d : dict) (k : string) : H value :=
  match Dict.get k d with
  | Some v => pure v
  | None => throw (KeyError k)
  end.

(** [d.get(k)], which is [None] on a missing key. *)
Definition get_or_none (d : dict) (k : string) : value :=
  match Dict.get k d with
  | Some v => v
  | None => VNone
  end.

(** [db[name].count_documents(filt)]: one read that gives the number of
    matching documents. *)
Definition count_documents (name : string) (filt : dict) : M Z := fun w =>
  (Return (Z.of_nat (length (List.filter (Mongo.matches filt) (collection name w)))),
   {| db := db w; next_id := next_id w; log := log w ++ [Read name] |}).

(** [create_document] is also handed plain dictionaries; a dictionary is
    stored with the fields it has. *)
#[global] Instance dump_dict : BaseModel dict := fun d => d.

(** [EmailStr] of pydantic.  An address is either refused or accepted, and an
    accepted address is given back in the form that is kept.  Which it is the
    email-validator package decides; the check is a parameter here. *)
Class EmailStr := validate_email : string → option string.

Module User.
Record t := {
  name : string;
  email : string;
  hashed_password : string;
  is_active : bool
}.

(** [User(name=…, email=…, hashed_password=…)]: the address goes through
    [EmailStr], [is_active] takes its default. *)
Definition new `{EmailStr} (name email hashed_password : string) : H t :=
  match validate_email email with
  | Some checked =>
      pure {| name := name; email := checked;
              hashed_password := hashed_password; is_active := true |}
  | None => throw ValidationError
  end.

#[global] Instance dump : BaseModel t := fun u =>
  [("name", VStr (name u)); ("email", VStr (email u));
   ("hashed_password", VStr (hashed_password u)); ("is_active", VBool (is_active u))].
End User.

Definition seed_services : M dict :=
  let* count := count_documents "service" [] in
  if (count =? 0)%Z then
    let services : list dict :=
      [[("title", VStr "Behavior Consultation"); ("description", VStr "Initial consultation");
        ("price_cents", VInt 15000); ("duration_minutes", VInt 60)];
       [("title", VStr "Therapy Session"); ("description", VStr "Follow-up therapy");
        ("price_cents", VInt 9000); ("duration_minutes", VInt 45)]] in
    let* _ := for_each services (fun s => create_document "service" s) in
    ret [("seeded", VBool true); ("count", VInt (Z.of_nat (length services)))]
  else
    ret [("seeded", VBool false)].

Definition list_services : M (list dict) :=
  let* docs := get_documents "service" [] in
  ret (List.map to_public docs).

Module RegisterRequest.
Record t := {
  name : string;
  email : string;
  password : string
}.
End RegisterRequest.

Definition register `{EmailStr} (req : RegisterRequest.t) : H dict :=
  let! existing := lift (Mongo.find_one "user" [("email", VStr (RegisterRequest.email req))]) in
  if Py.truthy_opt_dict existing then
    throw (Http {| status_code := 400; detail := "Email already registered" |})
  else
    let! user := User.new (RegisterRequest.name req) (RegisterRequest.email req)
                   (RegisterRequest.password req) in
    let! user_id := lift (create_document "user" user) in
    pure [("id", VStr user_id); ("name", VStr (RegisterRequest.name req));
          ("email", VStr (RegisterRequest.email req))].

Module LoginRequest.
Record t := {
  email : string;
  password : string
}.
End LoginRequest.

Definition login (req : LoginRequest.t) : H dict :=
  let! user := lift (Mongo.find_one "user"
                       [("email", VStr (LoginRequest.email req));
                        ("hashed_password", VStr (LoginRequest.password req))]) in
  if negb (Py.truthy_opt_dict user) then
    throw (Http {| status_code := 401; detail := "Invalid credentials" |})
  else
    let user := default [] user in
    let! _id := subscript user "_id" in
    pure [("id", VStr (Py.str _id)); ("name", get_or_none user "name");
          ("email", get_or_none user "email")].

Definition list_orders (user_id : string) : M (list dict) :=
  let* docs := get_documents "order" [("user_id", VStr user_id)] in
  ret (List.map to_public docs).

(** ** More vocabulary *)

(** The reply and the store a handler that can raise more leaves. *)
Definition answer {A} (m : H A) (w : Store) : reply A := (m w).1.
Definition thereafter {A} (m : H A) (w : Store) : Store := (m w).2.

(** The stored users, services and orders. *)
Definition users (w : Store) : list dict := collection "user" w.
Definition services (w : Store) : list dict := collection "service" w.
Definition orders (w : Store) : list dict := collection "order" w.

(** A stored user has address [e]; has address [e] and password [p]. *)
Definition has_email (e : string) (doc : dict) : Prop :=
  Dict.get "email" doc = Some (VStr e).

Definition has_credentials (e p : string) (doc : dict) : Prop :=
  Dict.get "email" doc = Some (VStr e) ∧ Dict.get "hashed_password" doc = Some (VStr p).


(** Registrations served one after the other. *)
Fixpoint enroll `{EmailStr} (reqs : list RegisterRequest.t) (w : Store) : Store :=
  match reqs with
  | [] => w
  | req :: reqs' => enroll reqs' (thereafter (register req) w)
  end.

(** The [user_id] field of a stored order equals [u]. *)
Definition ordered_by (u : string) (doc : dict) : bool := user_is u doc.

(** Two stores that hold the same documents and will generate the same
    identity next: they differ at most in the accesses logged. *)
Definition same_data (w w' : Store) : Prop :=
  db w' = db w ∧ next_id w' = next_id w.

(** The record a successful registration stores under identity [oid]. *)
Definition enrolled (oid : ObjectId) (name checked password : string) : dict :=
  [("_id", VObjectId oid); ("name", VStr name); ("email", VStr checked);
   ("hashed_password", VStr password); ("is_active", VBool true)].

Module Fixture.

(** A check that accepts what holds an at sign and keeps it as it is. *)
Definition as_written : EmailStr := fun e =>
  if Py.contains "@"%char e then Some e else None.

(** A check that accepts everything and keeps it with ["A"] lowered, the
    way a normal form folds the case of letters. *)
Fixpoint lower_a (s : string) : string :=
  match s with
  | EmptyString => EmptyString
  | String c s' => String (if Ascii.eqb c "A" then "a"%char else c) (lower_a s')
  end.

Definition folding : EmailStr := fun e => Some (lower_a e).

Definition ann : RegisterRequest.t :=
  {| RegisterRequest.name := "Ann"; RegisterRequest.email := "ann@example.org";
     RegisterRequest.password := "s3cret" |}.

Definition ann_again : RegisterRequest.t :=
  {| RegisterRequest.name := "Annabel"; RegisterRequest.email := "ann@example.org";
     RegisterRequest.password := "other" |}.

Definition no_address : RegisterRequest.t :=
  {| RegisterRequest.name := "Bob"; RegisterRequest.email := "bob";
     RegisterRequest.password := "pw" |}.

Definition ann_login : LoginRequest.t :=
  {| LoginRequest.email := "ann@example.org"; LoginRequest.password := "s3cret" |}.

(** The store after [ann] registered. *)
Definition one_user : Store := thereafter (@register as_written ann) empty_store.

(** The store after the basket of [Sample] was checked out. *)
Definition one_order : Store := after (create_checkout Sample.basket) empty_store.

End Fixture.

(** * Properties *)

(** ** Dictionaries *)

Section dict_facts.
Implicit Types (k j : string) (v : value) (d : dict).

Lemma get_set_eq k v d : Dict.get k (Dict.set k v d) = Some v.
Proof.
  induction d as [|[j x] d IH]; simpl.
  - by rewrite String.eqb_refl.
  - destruct (String.eqb_spec j k) as [->|Hne]; simpl.
    + by rewrite String.eqb_refl.
    + by destruct (String.eqb_spec j k).
Qed.

Lemma get_set_ne k j v d : k ≠ j → Dict.get j (Dict.set k v d) = Dict.get j d.
Proof.
  intros Hkj. induction d as [|[i x] d IH]; simpl.
  - by destruct (String.eqb_spec k j).
  - destruct (String.eqb_spec i k) as [->|Hik]; simpl.
    + by destruct (String.eqb_spec k j).
    + by rewrite IH.
Qed.

Lemma get_remove_eq k d : Dict.get k (Dict.remove k d) = None.
Proof.
  induction d as [|[j x] d IH]; simpl; [done|].
  destruct (String.eqb_spec j k) as [->|Hne]; simpl; [done|].
  by destruct (String.eqb_spec j k).
Qed.

Lemma get_remove_ne k j d : k ≠ j → Dict.get j (Dict.remove k d) = Dict.get j d.
Proof.
  intros Hkj. induction d as [|[i x] d IH]; simpl; [done|].
  destruct (String.eqb_spec i k) as [->|Hik]; simpl.
  - by destruct (String.eqb_spec k j).
  - by rewrite IH.
Qed.

Lemma get_map_values f k d :
  Dict.get k (Dict.map_values f d) = f <$> Dict.get k d.
Proof.
  induction d as [|[j x] d IH]; simpl; [done|].
  by destruct (String.eqb j k).
Qed.

Lemma get_nonempty k v d : Dict.get k d = Some v → Py.truthy_dict d = true.
Proof. by destruct d. Qed.

End dict_facts.

(** ** Equality of values *)

Lemma datetime_eqb_eq a b : datetime_eqb a b = true ↔ a = b.
Proof.
  unfold datetime_eqb. destruct a, b; simpl.
  rewrite !andb_true_iff, !N.eqb_eq. split.
  - intros [[[[[[-> ->] ->] ->] ->] ->] ->]. done.
  - intros [= -> -> -> -> -> -> ->]. done.
Qed.

Lemma value_eqb_eq : ∀ a b, value_eqb a b = true ↔ a = b.
Proof.
  fix IH 1. intros a b. destruct a, b; simpl; try (split; [discriminate|discriminate]);
    try done.
  - rewrite Bool.eqb_true_iff. split; congruence.
  - rewrite Z.eqb_eq. split; congruence.
  - rewrite String.eqb_eq. split; congruence.
  - rewrite N.eqb_eq. split; congruence.
  - rewrite datetime_eqb_eq. split; congruence.
  - revert l0. induction l as [|u l IHl]; intros [|v l0]; try (split; [discriminate|discriminate]);
      try done.
    rewrite andb_true_iff, IH, IHl. split.
    + intros [-> [= ->]]. done.
    + intros [= -> ->]. done.
  - revert d0. induction d as [|[j u] d IHd]; intros [|[k v] d0];
      try (split; [discriminate|discriminate]); try done.
    rewrite !andb_true_iff, String.eqb_eq, IH, IHd. split.
    + intros [[-> ->] [= ->]]. done.
    + intros [= -> -> ->]. done.
Qed.

Lemma value_eqb_str x s : value_eqb x (VStr s) = true ↔ x = VStr s.
Proof. apply value_eqb_eq. Qed.

(** ** Queries of the store *)

Section store_facts.
Implicit Types (w : Store) (s : string) (doc : dict).

Lemma matches_slot s doc :
  Mongo.matches [("start_time_iso", VStr s)] doc = true ↔ occupies s doc.
Proof.
  unfold Mongo.matches, occupies, slot_of; simpl. rewrite andb_true_r.
  destruct (Dict.get "start_time_iso" doc) as [x|].
  - rewrite value_eqb_str. split; congruence.
  - split; discriminate.
Qed.

Lemma matches_user u doc :
  Mongo.matches [("user_id", VStr u)] doc = user_is u doc.
Proof.
  unfold Mongo.matches, user_is; simpl. rewrite andb_true_r.
  destruct (Dict.get "user_id" doc) as [[]|]; done.
Qed.

Lemma user_is_spec u doc :
  user_is u doc = true ↔ Dict.get "user_id" doc = Some (VStr u).
Proof.
  rewrite <-matches_user. unfold Mongo.matches; simpl. rewrite andb_true_r.
  destruct (Dict.get "user_id" doc) as [x|].
  - rewrite value_eqb_str. split; congruence.
  - split; discriminate.
Qed.

Lemma filter_no_filter (l : list dict) : List.filter (Mongo.matches []) l = l.
Proof. induction l as [|d l IH]; simpl; [done|]. by rewrite IH. Qed.

Lemma find_Some_elem {A} (P : A → bool) (l : list A) x :
  List.find P l = Some x → x ∈ l ∧ P x = true.
Proof.
  induction l as [|y l IH]; simpl; [done|].
  destruct (P y) eqn:Hy.
  - intros [= ->]. split; [left|done].
  - intros Hx. destruct (IH Hx). split; [by right|done].
Qed.

Lemma find_None_elem {A} (P : A → bool) (l : list A) :
  List.find P l = None → ∀ x, x ∈ l → P x = false.
Proof.
  induction l as [|y l IH]; simpl; intros Hf x Hx.
  - by apply elem_of_nil in Hx.
  - destruct (P y) eqn:Hy; [done|].
    apply elem_of_cons in Hx as [->|Hx]; [done|by apply IH].
Qed.

Lemma taken_or_free s w : taken s w ∨ free s w.
Proof.
  destruct (List.find (Mongo.matches [("start_time_iso", VStr s)]) (appointments w))
    as [d|] eqn:Hf.
  - left. apply find_Some_elem in Hf as [Hin Hm]. exists d.
    by rewrite <-matches_slot.
  - right. intros d Hin Hocc. apply matches_slot in Hocc.
    by rewrite (find_None_elem _ _ Hf d Hin) in Hocc.
Qed.

Lemma taken_not_free s w : taken s w → free s w → False.
Proof. intros (d & Hin & Hocc) Hfree. by apply (Hfree d). Qed.

Lemma occupies_booked oid req s :
  occupies s (booked oid req) ↔ s = CreateAppointmentRequest.start_time_iso req.
Proof. unfold occupies, slot_of; simpl. split; [by intros [= ->]|by intros ->]. Qed.

End store_facts.

(** ** The booking handler, case by case *)

Section booking_cases.
Variable req : CreateAppointmentRequest.t.
Variable w : Store.

Lemma create_appointment_taken :
  taken (CreateAppointmentRequest.start_time_iso req) w →
  create_appointment req w
  = (Raise ConflictError,
     {| db := db w; next_id := next_id w; log := log w ++ [Read "appointment"] |}).
Proof.
  intros (d & Hin & Hocc).
  unfold create_appointment, bind, Mongo.find_one.
  destruct (List.find _ (collection "appointment" w)) as [c|] eqn:Hf.
  - apply find_Some_elem in Hf as [_ Hm]. apply matches_slot in Hm.
    unfold Py.truthy_opt_dict. by rewrite (get_nonempty _ _ _ Hm).
  - apply matches_slot in Hocc.
    by rewrite (find_None_elem _ _ Hf d Hin) in Hocc.
Qed.

Lemma create_appointment_free :
  free (CreateAppointmentRequest.start_time_iso req) w →
  create_appointment req w
  = (Return [("id", VStr (Py.str (VObjectId (next_id w))))],
     {| db := <["appointment" := appointments w ++ [booked (next_id w) req]]> (db w);
        next_id := N.succ (next_id w);
        log := (log w ++ [Read "appointment"]) ++ [Write "appointment"] |}).
Proof.
  intros Hfree.
  unfold create_appointment, bind, Mongo.find_one.
  destruct (List.find _ (collection "appointment" w)) as [c|] eqn:Hf.
  - apply find_Some_elem in Hf as [Hin Hm]. apply matches_slot in Hm.
    by destruct (Hfree c).
  - done.
Qed.

End booking_cases.

Lemma collection_after_insert (name : string) (w : Store) (docs : list dict)
    (n : ObjectId) (l : list access) :
  collection name {| db := <[name := docs]> (db w); next_id := n; log := l |} = docs.
Proof. unfold collection; simpl. apply lookup_total_insert_eq. Qed.

Lemma appointments_after_insert (w : Store) (docs : list dict) (n : ObjectId) (l : list access) :
  appointments {| db := <["appointment" := docs]> (db w); next_id := n; log := l |} = docs.
Proof. apply collection_after_insert. Qed.

(** ** Booking *)

(** C1. When the store already holds a record whose [start_time_iso] is the
    requested string, booking fails with the conflict error, whose message
    is "Time slot already booked", and nothing is created: the database, and
    with it the stored appointments, are what they were before the call. *)
Theorem booking_taken_slot_conflicts (w : Store) (req : CreateAppointmentRequest.t) (d : dict) :
  d ∈ appointments w →
  Dict.get "start_time_iso" d = Some (VStr (CreateAppointmentRequest.start_time_iso req)) →
  outcome (create_appointment req) w
  = Raise {| status_code := 400; detail := "Time slot already booked" |}
  ∧ db (after (create_appointment req) w) = db w
  ∧ appointments (after (create_appointment req) w) = appointments w.
Proof.
  intros Hin Hslot. unfold outcome, after.
  rewrite create_appointment_taken by (by exists d).
  done.
Qed.

Lemma booking_taken_slot_conflicts_witness :
  outcome (create_appointment (Sample.request "bob" Sample.ten 30)) Sample.one_booked
  = Raise {| status_code := 400; detail := "Time slot already booked" |}
  ∧ db (after (create_appointment (Sample.request "bob" Sample.ten 30)) Sample.one_booked)
    = db Sample.one_booked
  ∧ appointments (after (create_appointment (Sample.request "bob" Sample.ten 30)) Sample.one_booked)
    = appointments Sample.one_booked.
Proof.
  apply (booking_taken_slot_conflicts Sample.one_booked
           (Sample.request "bob" Sample.ten 30)
           (booked 0%N (Sample.request "ann" Sample.ten 45))).
  - vm_compute. left.
  - reflexivity.
Defined.

Example double_booking_leaves_one :
  outcome (create_appointment (Sample.request "ann" "2024-01-01T10:00:00" 45))
    (after (create_appointment (Sample.request "ann" "2024-01-01T10:00:00" 45)) empty_store)
  = Raise ConflictError
  ∧ length (appointments
              (serve [Sample.request "ann" "2024-01-01T10:00:00" 45;
                      Sample.request "ann" "2024-01-01T10:00:00" 45] empty_store)) = 1%nat.
Proof. split; reflexivity. Qed.

(** C2. When no stored record has the requested [start_time_iso], booking
    stores one new record, made of the fields of the request with status
    "scheduled" and no order, and returns the identity generated for it. *)
Theorem booking_free_slot_persists (w : Store) (req : CreateAppointmentRequest.t) :
  (∀ d, d ∈ appointments w →
        Dict.get "start_time_iso" d
        ≠ Some (VStr (CreateAppointmentRequest.start_time_iso req))) →
  ∃ (oid : ObjectId) (doc : dict),
    outcome (create_appointment req) w = Return [("id", VStr (Py.str (VObjectId oid)))]
    ∧ appointments (after (create_appointment req) w) = appointments w ++ [doc]
    ∧ Dict.get "_id" doc = Some (VObjectId oid)
    ∧ Dict.get "user_id" doc = Some (VStr (CreateAppointmentRequest.user_id req))
    ∧ Dict.get "service_id" doc = Some (VStr (CreateAppointmentRequest.service_id req))
    ∧ Dict.get "service_title" doc
      = Some (VStr (CreateAppointmentRequest.service_title req))
    ∧ Dict.get "start_time_iso" doc
      = Some (VStr (CreateAppointmentRequest.start_time_iso req))
    ∧ Dict.get "duration_minutes" doc
      = Some (VInt (CreateAppointmentRequest.duration_minutes req))
    ∧ Dict.get "status" doc = Some (VStr "scheduled")
    ∧ Dict.get "order_id" doc = Some VNone.
Proof.
  intros Hfree. exists (next_id w), (booked (next_id w) req). unfold outcome, after.
  rewrite create_appointment_free by exact Hfree.
  cbn [fst snd]. rewrite appointments_after_insert. done.
Qed.

Lemma booking_free_slot_persists_witness :
  ∃ (oid : ObjectId) (doc : dict),
    outcome (create_appointment (Sample.request "bob" Sample.ten_and_a_second 60))
      Sample.one_booked
    = Return [("id", VStr (Py.str (VObjectId oid)))]
    ∧ appointments (after (create_appointment (Sample.request "bob" Sample.ten_and_a_second 60))
                      Sample.one_booked)
      = appointments Sample.one_booked ++ [doc]
    ∧ Dict.get "_id" doc = Some (VObjectId oid)
    ∧ Dict.get "user_id" doc = Some (VStr "bob")
    ∧ Dict.get "service_id" doc = Some (VStr "svc-1")
    ∧ Dict.get "service_title" doc = Some (VStr "Therapy Session")
    ∧ Dict.get "start_time_iso" doc = Some (VStr "2024-01-01T10:00:01")
    ∧ Dict.get "duration_minutes" doc = Some (VInt 60)
    ∧ Dict.get "status" doc = Some (VStr "scheduled")
    ∧ Dict.get "order_id" doc = Some VNone.
Proof.
  apply (booking_free_slot_persists Sample.one_booked
           (Sample.request "bob" Sample.ten_and_a_second 60)).
  intros d Hd. vm_compute in Hd. apply list_elem_of_singleton in Hd as ->.
  vm_compute. discriminate.
Defined.

(** ** One slot, one appointment *)

Lemma create_appointment_keeps_unique (req : CreateAppointmentRequest.t) (w : Store) :
  slots_unique w → slots_unique (after (create_appointment req) w).
Proof.
  intros Hu. unfold after.
  destruct (taken_or_free (CreateAppointmentRequest.start_time_iso req) w) as [Ht|Hf].
  - rewrite create_appointment_taken by done. exact Hu.
  - rewrite create_appointment_free by done. cbn [snd].
    intros a b Ha Hb v Hva Hvb. rewrite appointments_after_insert in Ha, Hb.
    apply elem_of_app in Ha as [Ha|Ha]; apply elem_of_app in Hb as [Hb|Hb].
    + by apply (Hu a b Ha Hb v).
    + apply list_elem_of_singleton in Hb as ->.
      destruct (Hf a Ha). unfold occupies. rewrite Hva, <-Hvb. done.
    + apply list_elem_of_singleton in Ha as ->.
      destruct (Hf b Hb). unfold occupies. rewrite Hvb, <-Hva. done.
    + apply list_elem_of_singleton in Ha as ->.
      by apply list_elem_of_singleton in Hb as ->.
Qed.

(** C3. From a store in which no two appointments share a [start_time_iso],
    bookings served one after the other leave a store in which two
    appointments with the same [start_time_iso] are one and the same. *)
Theorem serialized_bookings_keep_slots_unique
    (reqs : list CreateAppointmentRequest.t) (w : Store) :
  (∀ a b, a ∈ appointments w → b ∈ appointments w →
          ∀ v, Dict.get "start_time_iso" a = Some v →
               Dict.get "start_time_iso" b = Some v → a = b) →
  ∀ a b, a ∈ appointments (serve reqs w) → b ∈ appointments (serve reqs w) →
         ∀ v, Dict.get "start_time_iso" a = Some v →
              Dict.get "start_time_iso" b = Some v → a = b.
Proof.
  change (slots_unique w → slots_unique (serve reqs w)).
  revert w. induction reqs as [|req reqs IH]; intros w Hu; simpl; [done|].
  apply IH. by apply create_appointment_keeps_unique.
Qed.

Lemma serialized_bookings_keep_slots_unique_witness :
  slots_unique (serve [Sample.request "bob" Sample.ten 30;
                       Sample.request "bob" Sample.ten_and_a_second 60;
                       Sample.request "cat" Sample.ten_and_a_second 15]
                  Sample.one_booked).
Proof.
  refine (serialized_bookings_keep_slots_unique
            [Sample.request "bob" Sample.ten 30;
             Sample.request "bob" Sample.ten_and_a_second 60;
             Sample.request "cat" Sample.ten_and_a_second 15]
            Sample.one_booked _).
  intros a b Ha Hb v _ _. vm_compute in Ha, Hb.
  apply list_elem_of_singleton in Ha. apply list_elem_of_singleton in Hb.
  congruence.
Defined.

(** ** What counts as a conflict *)

Lemma conflict_iff_taken (w : Store) (req : CreateAppointmentRequest.t) :
  outcome (create_appointment req) w = Raise ConflictError
  ↔ taken (CreateAppointmentRequest.start_time_iso req) w.
Proof.
  unfold outcome.
  destruct (taken_or_free (CreateAppointmentRequest.start_time_iso req) w) as [Ht|Hf].
  - by rewrite create_appointment_taken.
  - rewrite create_appointment_free by done. split; [done|].
    intros Ht. destruct (taken_not_free _ _ Ht Hf).
Qed.

Lemma success_iff_free (w : Store) (req : CreateAppointmentRequest.t) :
  (∃ r, outcome (create_appointment req) w = Return r)
  ↔ free (CreateAppointmentRequest.start_time_iso req) w.
Proof.
  unfold outcome.
  destruct (taken_or_free (CreateAppointmentRequest.start_time_iso req) w) as [Ht|Hf].
  - rewrite create_appointment_taken by done. split.
    + by intros [r ?].
    + intros Hf. destruct (taken_not_free _ _ Ht Hf).
  - rewrite create_appointment_free by done. split; [done|].
    intros _. by eexists.
Qed.

Lemma taken_after_booking (w : Store) (r1 : CreateAppointmentRequest.t) (s : string) :
  free (CreateAppointmentRequest.start_time_iso r1) w →
  taken s (after (create_appointment r1) w)
  ↔ s = CreateAppointmentRequest.start_time_iso r1 ∨ taken s w.
Proof.
  intros Hf. unfold after. rewrite create_appointment_free by done. cbn [snd].
  unfold taken. setoid_rewrite appointments_after_insert. split.
  - intros (d & Hd & Hocc). apply elem_of_app in Hd as [Hd|Hd].
    + right. by exists d.
    + left. apply list_elem_of_singleton in Hd as ->. by apply occupies_booked in Hocc.
  - intros [->|(d & Hd & Hocc)].
    + exists (booked (next_id w) r1). split; [|by apply occupies_booked].
      apply elem_of_app. right. by apply list_elem_of_singleton.
    + exists d. split; [|done]. apply elem_of_app. by left.
Qed.

(** C4. Conflicts are decided by exact equality of the [start_time_iso]
    strings and by nothing else: a request is rejected exactly when a stored
    record holds the same string; after a successful booking a second
    request is rejected exactly when its string is that of the first or was
    already stored; and booking "2024-01-01T10:00:00" and then
    "2024-01-01T10:00:01", whatever the durations, succeeds twice. *)
Theorem conflict_is_exact_string_match :
  (∀ (w : Store) (req : CreateAppointmentRequest.t),
     outcome (create_appointment req) w = Raise ConflictError
     ↔ ∃ d, d ∈ appointments w
            ∧ Dict.get "start_time_iso" d
              = Some (VStr (CreateAppointmentRequest.start_time_iso req)))
  ∧ (∀ (w : Store) (r1 r2 : CreateAppointmentRequest.t),
       free (CreateAppointmentRequest.start_time_iso r1) w →
       outcome (create_appointment r2) (after (create_appointment r1) w)
       = Raise ConflictError
       ↔ CreateAppointmentRequest.start_time_iso r2
         = CreateAppointmentRequest.start_time_iso r1
         ∨ taken (CreateAppointmentRequest.start_time_iso r2) w)
  ∧ (∀ (w : Store) (r1 r2 : CreateAppointmentRequest.t),
       CreateAppointmentRequest.start_time_iso r1 = "2024-01-01T10:00:00" →
       CreateAppointmentRequest.start_time_iso r2 = "2024-01-01T10:00:01" →
       free "2024-01-01T10:00:00" w →
       free "2024-01-01T10:00:01" w →
       (∃ i1, outcome (create_appointment r1) w = Return i1)
       ∧ (∃ i2, outcome (create_appointment r2) (after (create_appointment r1) w)
                = Return i2)).
Proof.
  split; [|split].
  - intros w req. apply conflict_iff_taken.
  - intros w r1 r2 Hf. rewrite conflict_iff_taken. by apply taken_after_booking.
  - intros w r1 r2 H1 H2 Hf1 Hf2. split.
    + apply success_iff_free. by rewrite H1.
    + apply success_iff_free. rewrite H2.
      intros d Hd Hocc.
      assert (Ht : taken "2024-01-01T10:00:01" (after (create_appointment r1) w))
        by (by exists d).
      apply (taken_after_booking w r1) in Ht; [|by rewrite H1].
      destruct Ht as [Heq|Ht].
      * rewrite H1 in Heq. discriminate.
      * by apply (taken_not_free _ _ Ht).
Qed.

Lemma conflict_is_exact_string_match_witness :
  (outcome (create_appointment (Sample.request "bob" Sample.ten 30)) Sample.one_booked
   = Raise ConflictError)
  ∧ (outcome (create_appointment (Sample.request "bob" Sample.ten_and_a_second 30))
       (after (create_appointment (Sample.request "bob" Sample.ten_and_a_second 240))
          Sample.one_booked)
     = Raise ConflictError)
  ∧ ((∃ i1, outcome (create_appointment (Sample.request "ann" Sample.ten 240)) empty_store
            = Return i1)
     ∧ (∃ i2, outcome (create_appointment (Sample.request "bob" Sample.ten_and_a_second 15))
                (after (create_appointment (Sample.request "ann" Sample.ten 240)) empty_store)
              = Return i2)).
Proof.
  destruct conflict_is_exact_string_match as (Hexact & Hsecond & Hboth).
  split; [|split].
  - apply (Hexact Sample.one_booked (Sample.request "bob" Sample.ten 30)).
    exists (booked 0%N (Sample.request "ann" Sample.ten 45)).
    split; [vm_compute; left|reflexivity].
  - apply (Hsecond Sample.one_booked
             (Sample.request "bob" Sample.ten_and_a_second 240)
             (Sample.request "bob" Sample.ten_and_a_second 30)).
    + intros d Hd. vm_compute in Hd. apply list_elem_of_singleton in Hd as ->.
      vm_compute. discriminate.
    + left. reflexivity.
  - apply (Hboth empty_store (Sample.request "ann" Sample.ten 240)
             (Sample.request "bob" Sample.ten_and_a_second 15)).
    + reflexivity.
    + reflexivity.
    + intros d Hd. vm_compute in Hd. by apply elem_of_nil in Hd.
    + intros d Hd. vm_compute in Hd. by apply elem_of_nil in Hd.
Defined.

(** C5. The duration plays no part in the decision: of two requests that
    differ only in [duration_minutes], run against the same store, either
    both are rejected with the conflict error or both succeed. *)
Theorem conflict_ignores_duration (w : Store) (r1 r2 : CreateAppointmentRequest.t) :
  differ_only_in_duration r1 r2 →
  (outcome (create_appointment r1) w = Raise ConflictError
   ∧ outcome (create_appointment r2) w = Raise ConflictError)
  ∨ (∃ i1 i2, outcome (create_appointment r1) w = Return i1
              ∧ outcome (create_appointment r2) w = Return i2).
Proof.
  intros (_ & _ & _ & Hstart).
  destruct (taken_or_free (CreateAppointmentRequest.start_time_iso r1) w) as [Ht|Hf].
  - left. split; apply conflict_iff_taken; [done|by rewrite <-Hstart].
  - right.
    destruct (proj2 (success_iff_free w r1) Hf) as [i1 Hi1].
    destruct (proj2 (success_iff_free w r2)) as [i2 Hi2]; [by rewrite <-Hstart|].
    by exists i1, i2.
Qed.

Lemma conflict_ignores_duration_witness :
  (outcome (create_appointment (Sample.request "bob" Sample.ten 15)) Sample.one_booked
   = Raise ConflictError
   ∧ outcome (create_appointment (Sample.request "bob" Sample.ten 240)) Sample.one_booked
     = Raise ConflictError)
  ∨ (∃ i1 i2,
       outcome (create_appointment (Sample.request "bob" Sample.ten 15)) Sample.one_booked
       = Return i1
       ∧ outcome (create_appointment (Sample.request "bob" Sample.ten 240)) Sample.one_booked
         = Return i2).
Proof.
  apply (conflict_ignores_duration Sample.one_booked
           (Sample.request "bob" Sample.ten 15) (Sample.request "bob" Sample.ten 240)).
  repeat split; reflexivity.
Defined.

(** ** Listing *)

Lemma filter_by_user (u : string) (l : list dict) :
  List.filter (Mongo.matches [("user_id", VStr u)]) l = List.filter (user_is u) l.
Proof.
  induction l as [|d l IH]; [done|].
  cbn [List.filter]. by rewrite matches_user, IH.
Qed.

Lemma list_appointments_filtered (u : string) (w : Store) :
  u ≠ "" →
  list_appointments (Some u) w
  = (Return (List.map to_public (List.filter (user_is u) (appointments w))),
     {| db := db w; next_id := next_id w; log := log w ++ [Read "appointment"] |}).
Proof.
  intros Hu. destruct u as [|c u]; [done|].
  unfold list_appointments, get_documents, bind, Mongo.find; simpl.
  by rewrite <-filter_by_user.
Qed.

Lemma list_appointments_unfiltered (user_id : option string) (w : Store) :
  Py.truthy_opt_str user_id = false →
  list_appointments user_id w
  = (Return (List.map to_public (appointments w)),
     {| db := db w; next_id := next_id w; log := log w ++ [Read "appointment"] |}).
Proof.
  intros Hu. unfold list_appointments, get_documents, bind, Mongo.find.
  rewrite Hu. cbn [fst snd]. by rewrite filter_no_filter.
Qed.

(** C6 as stated fails: asked for the records of the user whose id is the
    empty string, the listing answers with every stored record, although
    none of them belongs to that user. *)
Lemma listing_by_empty_user_id_counterexample :
  List.filter (user_is "") (appointments Sample.two_booked) = []
  ∧ outcome (list_appointments (Some "")) Sample.two_booked
    = Return (List.map to_public (appointments Sample.two_booked))
  ∧ outcome (list_appointments (Some "")) Sample.two_booked
    ≠ Return (List.map to_public
                (List.filter (user_is "") (appointments Sample.two_booked))).
Proof. vm_compute. repeat split; discriminate. Qed.

(** C6, amended. Listing with a [user_id] that is not the empty string
    returns exactly the stored appointments whose [user_id] field equals it,
    in stored order and in their public form; listing without [user_id]
    returns all stored appointments. *)
Theorem listing_filters_by_user_id (w : Store) (u : string) :
  u ≠ "" →
  outcome (list_appointments (Some u)) w
  = Return (List.map to_public (List.filter (user_is u) (appointments w)))
  ∧ (∀ doc, user_is u doc = true ↔ Dict.get "user_id" doc = Some (VStr u))
  ∧ outcome (list_appointments None) w = Return (List.map to_public (appointments w)).
Proof.
  intros Hu. unfold outcome. split; [|split].
  - by rewrite list_appointments_filtered.
  - intros doc. apply user_is_spec.
  - by rewrite list_appointments_unfiltered.
Qed.

Lemma listing_filters_by_user_id_witness :
  outcome (list_appointments (Some "bob")) Sample.two_booked
  = Return (List.map to_public (List.filter (user_is "bob") (appointments Sample.two_booked)))
  ∧ (∀ doc, user_is "bob" doc = true ↔ Dict.get "user_id" doc = Some (VStr "bob"))
  ∧ outcome (list_appointments None) Sample.two_booked
    = Return (List.map to_public (appointments Sample.two_booked)).
Proof.
  apply (listing_filters_by_user_id Sample.two_booked "bob"). discriminate.
Defined.

(** C9. A [user_id] that is the empty string counts as no filter at all: the
    listing is the one made without [user_id], every stored appointment, and
    not just the appointments whose [user_id] is the empty string. *)
Theorem listing_empty_user_id_is_unfiltered (w : Store) :
  list_appointments (Some "") w = list_appointments None w
  ∧ outcome (list_appointments (Some "")) w = Return (List.map to_public (appointments w))
  ∧ ∃ w0, List.filter (user_is "") (appointments w0) = []
          ∧ outcome (list_appointments (Some "")) w0 ≠ Return [].
Proof.
  split; [|split].
  - by rewrite !list_appointments_unfiltered.
  - unfold outcome. by rewrite list_appointments_unfiltered.
  - exists Sample.two_booked. vm_compute. split; [done|discriminate].
Qed.

(** ** The public form of a record *)

Section to_public_facts.
Variable doc : dict.

Lemma to_public_identity (v : value) :
  Dict.get "_id" doc = Some v →
  Dict.get "id" (to_public doc) = Some (VStr (Py.str v))
  ∧ Dict.get "_id" (to_public doc) = None.
Proof.
  intros Hid. unfold to_public.
  rewrite (get_nonempty _ _ _ Hid), Hid. cbn [negb].
  rewrite !get_map_values. split.
  - by rewrite get_set_eq.
  - by rewrite get_set_ne, get_remove_eq.
Qed.

Lemma to_public_field (k : string) :
  k ≠ "id" → k ≠ "_id" →
  Dict.get k (to_public doc) = datetime_to_iso <$> Dict.get k doc.
Proof.
  intros Hk Hk'. unfold to_public.
  destruct (Py.truthy_dict doc) eqn:Hd; cbn [negb].
  - rewrite get_map_values. destruct (Dict.get "_id" doc) as [v|]; [|done].
    by rewrite get_set_ne, get_remove_ne.
  - destruct doc; [done|discriminate].
Qed.

Lemma to_public_no_datetime (k : string) (x : value) :
  Dict.get k (to_public doc) = Some x → Py.is_datetime x = false.
Proof.
  unfold to_public. destruct (Py.truthy_dict doc) eqn:Hd; cbn [negb].
  - rewrite get_map_values.
    destruct (Dict.get k _) as [y|]; [|done].
    intros [= <-]. by destruct y.
  - destruct doc; [done|discriminate].
Qed.

End to_public_facts.

(** C8. Every record the listing returns is the public form of a stored
    appointment: the stored identity is there as the string field [id] and
    the internal [_id] is gone, every other stored field holding a datetime
    holds its ISO-8601 text instead, and no field holds a datetime. *)
Theorem listed_records_are_public (w : Store) (user_id : option string) :
  ∃ records,
    outcome (list_appointments user_id) w = Return records
    ∧ ∀ r, r ∈ records →
        ∃ doc, doc ∈ appointments w
          ∧ r = to_public doc
          ∧ (∀ v, Dict.get "_id" doc = Some v →
                  Dict.get "id" r = Some (VStr (Py.str v))
                  ∧ Dict.get "_id" r = None)
          ∧ (∀ k t, k ≠ "id" → k ≠ "_id" →
                    Dict.get k doc = Some (VDatetime t) →
                    Dict.get k r = Some (VStr (Py.isoformat t)))
          ∧ (∀ k x, Dict.get k r = Some x → Py.is_datetime x = false).
Proof.
  assert (Hdocs : ∃ docs, outcome (list_appointments user_id) w
                          = Return (List.map to_public docs)
                          ∧ ∀ d, d ∈ docs → d ∈ appointments w).
  { unfold outcome. destruct (Py.truthy_opt_str user_id) eqn:Hu.
    - destruct user_id as [[|c u]|]; try discriminate.
      exists (List.filter (user_is (String c u)) (appointments w)).
      rewrite list_appointments_filtered by done. split; [done|].
      intros d Hd. apply list_elem_of_In, filter_In in Hd as [Hd _].
      by apply list_elem_of_In.
    - exists (appointments w). by rewrite list_appointments_unfiltered. }
  destruct Hdocs as (docs & Hret & Hsub).
  exists (List.map to_public docs). split; [done|].
  intros r Hr. apply list_elem_of_In, in_map_iff in Hr as (doc & <- & Hin).
  apply list_elem_of_In in Hin.
  exists doc. split; [by apply Hsub|]. split; [done|]. split; [|split].
  - apply to_public_identity.
  - intros k t Hk Hk' Hget. by rewrite to_public_field, Hget.
  - apply to_public_no_datetime.
Qed.

Lemma listed_records_are_public_witness :
  ∃ r, outcome (list_appointments None) Sample.stamped_store = Return [r]
       ∧ Dict.get "id" r = Some (VStr "000000000000000000000007")
       ∧ Dict.get "_id" r = None
       ∧ Dict.get "created_at" r = Some (VStr "2024-01-01T09:30:00").
Proof.
  destruct (listed_records_are_public Sample.stamped_store None)
    as (records & Hret & Hall).
  vm_compute in Hret. injection Hret as <-.
  eexists. split; [reflexivity|].
  edestruct Hall as (doc & Hin & Heq & Hid & Hiso & _); [left|].
  vm_compute in Hin. apply list_elem_of_singleton in Hin. subst doc.
  destruct (Hid (VObjectId 7)) as [Hid1 Hid2]; [reflexivity|].
  specialize (Hiso "created_at"
                {| year := 2024; month := 1; day := 1; hour := 9;
                   minute := 30; second := 0; microsecond := 0 |}).
  split; [exact Hid1|]. split; [exact Hid2|].
  apply Hiso; [discriminate|discriminate|reflexivity].
Defined.

(** ** What a booking touches *)

(** C7. A booking reads the appointment collection exactly once and writes
    to it at most once, with one insert when it succeeds and none when it is
    rejected; it touches no other collection, every other collection is left
    as it was, and every appointment stored before is still stored, at the
    same place and unchanged. *)
Theorem booking_reads_once_writes_at_most_once (w : Store) (req : CreateAppointmentRequest.t) :
  ∃ trace,
    log (after (create_appointment req) w) = log w ++ trace
    ∧ reads "appointment" trace = 1%nat
    ∧ (writes "appointment" trace ≤ 1)%nat
    ∧ only_touches "appointment" trace
    ∧ ((outcome (create_appointment req) w = Raise ConflictError
        ∧ writes "appointment" trace = 0%nat
        ∧ db (after (create_appointment req) w) = db w)
       ∨ (∃ r doc, outcome (create_appointment req) w = Return r
                   ∧ writes "appointment" trace = 1%nat
                   ∧ appointments (after (create_appointment req) w)
                     = appointments w ++ [doc]))
    ∧ (∀ name, name ≠ "appointment" →
               db (after (create_appointment req) w) !! name = db w !! name)
    ∧ (∀ i doc, appointments w !! i = Some doc →
                appointments (after (create_appointment req) w) !! i = Some doc).
Proof.
  unfold outcome, after.
  destruct (taken_or_free (CreateAppointmentRequest.start_time_iso req) w) as [Ht|Hf].
  - rewrite create_appointment_taken by done. cbn [fst snd log db].
    exists [Read "appointment"]. repeat split; try done.
    + unfold writes; simpl; lia.
    + intros a Ha. apply list_elem_of_singleton in Ha as ->. by left.
    + left. done.
  - rewrite create_appointment_free by done. cbn [fst snd log db].
    exists [Read "appointment"; Write "appointment"]. split; [by rewrite <-app_assoc|].
    split; [done|]. split; [done|]. split; [|split; [|split]].
    + intros a Ha. apply elem_of_cons in Ha as [->|Ha]; [by left|].
      apply list_elem_of_singleton in Ha as ->. by right.
    + right. eexists _, (booked (next_id w) req).
      split; [done|]. split; [done|]. apply appointments_after_insert.
    + intros name Hname. by rewrite lookup_insert_ne.
    + intros i doc Hi. rewrite appointments_after_insert.
      by apply lookup_app_l_Some.
Qed.

Lemma booking_reads_once_writes_at_most_once_witness :
  log (after (create_appointment (Sample.request "bob" Sample.ten_and_a_second 60))
         Sample.one_booked)
  = log Sample.one_booked ++ [Read "appointment"; Write "appointment"]
  ∧ db (after (create_appointment (Sample.request "bob" Sample.ten_and_a_second 60))
          Sample.one_booked) !! "order"
    = db Sample.one_booked !! "order"
  ∧ appointments (after (create_appointment (Sample.request "bob" Sample.ten_and_a_second 60))
                    Sample.one_booked) !! 0%nat
    = Some (booked 0%N (Sample.request "ann" Sample.ten 45)).
Proof.
  destruct (booking_reads_once_writes_at_most_once Sample.one_booked
              (Sample.request "bob" Sample.ten_and_a_second 60))
    as (trace & Hlog & _ & _ & _ & _ & Hframe & Hkept).
  split; [reflexivity|]. split.
  - apply Hframe. discriminate.
  - apply Hkept. reflexivity.
Defined.

(** ** Checkout *)

Lemma sum_prices_from (items : list OrderItem.t) (acc : Z) :
  fold_left Z.add
    (List.map (fun item => OrderItem.price_cents item * OrderItem.quantity item) items) acc
  = acc + sum_of_items items.
Proof.
  revert acc. induction items as [|item items IH]; intros acc; simpl; [lia|].
  rewrite IH. lia.
Qed.

Lemma sum_prices (items : list OrderItem.t) :
  Py.sum (List.map (fun item => OrderItem.price_cents item * OrderItem.quantity item) items)
  = sum_of_items items.
Proof. unfold Py.sum. rewrite sum_prices_from. lia. Qed.

(** C10. A checkout answers with, and stores, an amount that is the sum over
    its items of price times quantity, in exact integers and zero for no
    item; the stored order is pending and carries no payment time. *)
Theorem checkout_amount_is_sum_of_items (w : Store) (req : CheckoutRequest.t) :
  ∃ (oid : ObjectId) (doc : dict),
    outcome (create_checkout req) w
    = Return [("order_id", VStr (Py.str (VObjectId oid)));
              ("amount_cents", VInt (sum_of_items (CheckoutRequest.items req)));
              ("stripe_checkout_url", VNone)]
    ∧ collection "order" (after (create_checkout req) w) = collection "order" w ++ [doc]
    ∧ Dict.get "_id" doc = Some (VObjectId oid)
    ∧ Dict.get "user_id" doc = Some (VStr (CheckoutRequest.user_id req))
    ∧ Dict.get "amount_cents" doc = Some (VInt (sum_of_items (CheckoutRequest.items req)))
    ∧ Dict.get "status" doc = Some (VStr "pending")
    ∧ Dict.get "paid_at" doc = Some VNone
    ∧ sum_of_items [] = 0.
Proof.
  exists (next_id w).
  eexists (("_id", VObjectId (next_id w))
           :: model_dump (Order.new (CheckoutRequest.user_id req) (CheckoutRequest.items req)
                            (sum_of_items (CheckoutRequest.items req)))).
  unfold outcome, after, create_checkout, create_document, bind, Mongo.insert_one.
  rewrite sum_prices. cbn [fst snd]. split; [done|]. split; [|done].
  apply collection_after_insert.
Qed.

Example checkout_of_basket :
  outcome (create_checkout Sample.basket) empty_store
  = Return [("order_id", VStr "000000000000000000000000");
            ("amount_cents", VInt 33000);
            ("stripe_checkout_url", VNone)].
Proof. reflexivity. Qed.

(** * Registration and login *)

Lemma matches_email (e : string) (doc : dict) :
  Mongo.matches [("email", VStr e)] doc = true ↔ has_email e doc.
Proof.
  unfold Mongo.matches, has_email; simpl. rewrite andb_true_r.
  destruct (Dict.get "email" doc) as [x|].
  - rewrite value_eqb_str. split; congruence.
  - split; discriminate.
Qed.

Lemma matches_credentials (e p : string) (doc : dict) :
  Mongo.matches [("email", VStr e); ("hashed_password", VStr p)] doc = true
  ↔ has_credentials e p doc.
Proof.
  unfold Mongo.matches, has_credentials; simpl. rewrite andb_true_r, andb_true_iff.
  destruct (Dict.get "email" doc) as [x|], (Dict.get "hashed_password" doc) as [y|];
    rewrite ?value_eqb_str; split; intros [??]; split; congruence.
Qed.

Lemma find_app_last {A} (P : A → bool) (l : list A) (x : A) :
  (∀ y, y ∈ l → P y = false) → P x = true → List.find P (l ++ [x]) = Some x.
Proof.
  intros Hl Hx. induction l as [|y l IH]; simpl.
  - by rewrite Hx.
  - rewrite (Hl y) by left. apply IH. intros z Hz. apply Hl. by right.
Qed.

Lemma find_email_dec (e : string) (w : Store) :
  (∃ d, d ∈ users w ∧ has_email e d) ∨ (∀ d, d ∈ users w → ¬ has_email e d).
Proof.
  destruct (List.find (Mongo.matches [("email", VStr e)]) (users w)) as [d|] eqn:Hf.
  - left. apply find_Some_elem in Hf as [Hin Hm]. exists d. by rewrite <-matches_email.
  - right. intros d Hin He. apply matches_email in He.
    by rewrite (find_None_elem _ _ Hf d Hin) in He.
Qed.

Section register_cases.
Context `{EmailStr}.
Variable req : RegisterRequest.t.
Variable w : Store.

Lemma register_known :
  (∃ d, d ∈ users w ∧ has_email (RegisterRequest.email req) d) →
  register req w
  = (Raised (Http {| status_code := 400; detail := "Email already registered" |}),
     {| db := db w; next_id := next_id w; log := log w ++ [Read "user"] |}).
Proof.
  intros (d & Hin & He).
  unfold register, bindH, lift, Mongo.find_one.
  destruct (List.find _ (collection "user" w)) as [c|] eqn:Hf.
  - apply find_Some_elem in Hf as [_ Hm]. apply matches_email in Hm.
    unfold Py.truthy_opt_dict. by rewrite (get_nonempty _ _ _ Hm).
  - apply matches_email in He. by rewrite (find_None_elem _ _ Hf d Hin) in He.
Qed.

Lemma register_refused_address :
  (∀ d, d ∈ users w → ¬ has_email (RegisterRequest.email req) d) →
  validate_email (RegisterRequest.email req) = None →
  register req w
  = (Raised ValidationError,
     {| db := db w; next_id := next_id w; log := log w ++ [Read "user"] |}).
Proof.
  intros Hfree Hbad.
  unfold register, bindH, lift, Mongo.find_one.
  destruct (List.find _ (collection "user" w)) as [c|] eqn:Hf.
  - apply find_Some_elem in Hf as [Hin Hm]. apply matches_email in Hm.
    by destruct (Hfree c).
  - cbn [Py.truthy_opt_dict]. unfold User.new. by rewrite Hbad.
Qed.

Lemma register_fresh (checked : string) :
  (∀ d, d ∈ users w → ¬ has_email (RegisterRequest.email req) d) →
  validate_email (RegisterRequest.email req) = Some checked →
  register req w
  = (Replied [("id", VStr (Py.str (VObjectId (next_id w))));
              ("name", VStr (RegisterRequest.name req));
              ("email", VStr (RegisterRequest.email req))],
     {| db := <["user" := users w
                          ++ [enrolled (next_id w) (RegisterRequest.name req) checked
                                (RegisterRequest.password req)]]> (db w);
        next_id := N.succ (next_id w);
        log := (log w ++ [Read "user"]) ++ [Write "user"] |}).
Proof.
  intros Hfree Hok.
  unfold register, bindH, lift, Mongo.find_one.
  destruct (List.find _ (collection "user" w)) as [c|] eqn:Hf.
  - apply find_Some_elem in Hf as [Hin Hm]. apply matches_email in Hm.
    by destruct (Hfree c).
  - cbn [Py.truthy_opt_dict]. unfold User.new. by rewrite Hok.
Qed.

End register_cases.

Lemma users_after_insert (w : Store) (docs : list dict) (n : ObjectId) (l : list access) :
  users {| db := <["user" := docs]> (db w); next_id := n; log := l |} = docs.
Proof. apply collection_after_insert. Qed.

(** X1. Registering an address that a stored user already has is refused
    with status 400 and "Email already registered", whatever the address
    looks like, and the stored data stay as they were. *)
Theorem register_refuses_known_email `{EmailStr}
    (w : Store) (req : RegisterRequest.t) (d : dict) :
  d ∈ users w →
  Dict.get "email" d = Some (VStr (RegisterRequest.email req)) →
  answer (register req) w
  = Raised (Http {| status_code := 400; detail := "Email already registered" |})
  ∧ same_data w (thereafter (register req) w).
Proof.
  intros Hin He. unfold answer, thereafter.
  rewrite register_known by (by exists d). done.
Qed.

Lemma register_refuses_known_email_witness :
  answer (@register Fixture.as_written Fixture.ann_again) Fixture.one_user
  = Raised (Http {| status_code := 400; detail := "Email already registered" |})
  ∧ same_data Fixture.one_user
      (thereafter (@register Fixture.as_written Fixture.ann_again) Fixture.one_user).
Proof.
  apply (@register_refuses_known_email Fixture.as_written Fixture.one_user
           Fixture.ann_again (enrolled 0%N "Ann" "ann@example.org" "s3cret")).
  - vm_compute. left.
  - reflexivity.
Defined.

(** X2. Registering a new address that [EmailStr] refuses raises the
    validation error of the [User] model, after the look-up and before any
    insert: the stored data stay as they were. *)
Theorem register_rejects_refused_address `{EmailStr}
    (w : Store) (req : RegisterRequest.t) :
  (∀ d, d ∈ users w → Dict.get "email" d ≠ Some (VStr (RegisterRequest.email req))) →
  validate_email (RegisterRequest.email req) = None →
  answer (register req) w = Raised ValidationError
  ∧ same_data w (thereafter (register req) w)
  ∧ log (thereafter (register req) w) = log w ++ [Read "user"].
Proof.
  intros Hfree Hbad. unfold answer, thereafter.
  rewrite register_refused_address by done. done.
Qed.

Lemma register_rejects_refused_address_witness :
  answer (@register Fixture.as_written Fixture.no_address) Fixture.one_user
  = Raised ValidationError
  ∧ same_data Fixture.one_user
      (thereafter (@register Fixture.as_written Fixture.no_address) Fixture.one_user)
  ∧ log (thereafter (@register Fixture.as_written Fixture.no_address) Fixture.one_user)
    = log Fixture.one_user ++ [Read "user"].
Proof.
  apply (@register_rejects_refused_address Fixture.as_written Fixture.one_user
           Fixture.no_address).
  - intros d Hd. vm_compute in Hd. apply list_elem_of_singleton in Hd as ->.
    vm_compute. discriminate.
  - reflexivity.
Defined.

(** X3. Registering a new address that [EmailStr] accepts stores one new
    user: the name as given, the address in its checked form, the password
    exactly as sent under [hashed_password], and [is_active] true.  The
    reply carries the generated identity, the name and the address as
    requested. *)
Theorem register_stores_user `{EmailStr}
    (w : Store) (req : RegisterRequest.t) (checked : string) :
  (∀ d, d ∈ users w → Dict.get "email" d ≠ Some (VStr (RegisterRequest.email req))) →
  validate_email (RegisterRequest.email req) = Some checked →
  ∃ (oid : ObjectId) (doc : dict),
    answer (register req) w
    = Replied [("id", VStr (Py.str (VObjectId oid)));
               ("name", VStr (RegisterRequest.name req));
               ("email", VStr (RegisterRequest.email req))]
    ∧ users (thereafter (register req) w) = users w ++ [doc]
    ∧ Dict.get "_id" doc = Some (VObjectId oid)
    ∧ Dict.get "name" doc = Some (VStr (RegisterRequest.name req))
    ∧ Dict.get "email" doc = Some (VStr checked)
    ∧ Dict.get "hashed_password" doc = Some (VStr (RegisterRequest.password req))
    ∧ Dict.get "is_active" doc = Some (VBool true).
Proof.
  intros Hfree Hok.
  exists (next_id w),
    (enrolled (next_id w) (RegisterRequest.name req) checked (RegisterRequest.password req)).
  unfold answer, thereafter. rewrite (register_fresh req w checked) by done.
  cbn [fst snd]. rewrite users_after_insert. done.
Qed.

Lemma register_stores_user_witness :
  ∃ (oid : ObjectId) (doc : dict),
    answer (@register Fixture.folding Fixture.ann) empty_store
    = Replied [("id", VStr (Py.str (VObjectId oid)));
               ("name", VStr "Ann"); ("email", VStr "ann@example.org")]
    ∧ users (thereafter (@register Fixture.folding Fixture.ann) empty_store)
      = users empty_store ++ [doc]
    ∧ Dict.get "_id" doc = Some (VObjectId oid)
    ∧ Dict.get "name" doc = Some (VStr "Ann")
    ∧ Dict.get "email" doc = Some (VStr "ann@example.org")
    ∧ Dict.get "hashed_password" doc = Some (VStr "s3cret")
    ∧ Dict.get "is_active" doc = Some (VBool true).
Proof.
  apply (@register_stores_user Fixture.folding empty_store Fixture.ann "ann@example.org").
  - intros d Hd. vm_compute in Hd. by apply elem_of_nil in Hd.
  - reflexivity.
Defined.

Lemma find_all_false {A} (P : A → bool) (l : list A) :
  (∀ y, y ∈ l → P y = false) → List.find P l = None.
Proof.
  intros Hl. induction l as [|y l IH]; simpl; [done|].
  rewrite (Hl y) by left. apply IH. intros z Hz. apply Hl. by right.
Qed.

(** X4. Login is refused with status 401 and "Invalid credentials" exactly
    when no stored user has both the address and the password of the
    request; and whatever it answers, login leaves the stored data as they
    were. *)
Theorem login_refuses_iff_no_match (w : Store) (req : LoginRequest.t) :
  (answer (login req) w
   = Raised (Http {| status_code := 401; detail := "Invalid credentials" |})
   ↔ ∀ d, d ∈ users w →
          ¬ has_credentials (LoginRequest.email req) (LoginRequest.password req) d)
  ∧ same_data w (thereafter (login req) w).
Proof.
  unfold answer, thereafter, login, bindH, lift, Mongo.find_one.
  destruct (List.find _ (collection "user" w)) as [u|] eqn:Hf.
  - apply find_Some_elem in Hf as [Hin Hm]. apply matches_credentials in Hm.
    unfold Py.truthy_opt_dict. rewrite (get_nonempty _ _ _ (proj1 Hm)).
    cbn [negb]. change (default [] (Some u)) with u. unfold subscript, pure, throw.
    destruct (Dict.get "_id" u) as [v|]; cbn [fst snd].
    + split; [|done]. split; [discriminate|]. intros Hno. by destruct (Hno u).
    + split; [|done]. split; [discriminate|]. intros Hno. by destruct (Hno u).
  - cbn [Py.truthy_opt_dict negb fst snd]. split; [|done]. split; [|done].
    intros _ d Hin Hc. apply matches_credentials in Hc.
    by rewrite (find_None_elem _ _ Hf d Hin) in Hc.
Qed.

(** X5. When some stored user has the address and the password of the
    request, login answers for one such user: with the string of its [_id],
    its name ([None] when it has none) and the address, or with the
    [KeyError] of the subscript when that record carries no [_id]. *)
Theorem login_answers_for_matching_user (w : Store) (req : LoginRequest.t) (d0 : dict) :
  d0 ∈ users w →
  has_credentials (LoginRequest.email req) (LoginRequest.password req) d0 →
  ∃ d, d ∈ users w
       ∧ has_credentials (LoginRequest.email req) (LoginRequest.password req) d
       ∧ answer (login req) w
         = match Dict.get "_id" d with
           | Some v => Replied [("id", VStr (Py.str v));
                                ("name", get_or_none d "name");
                                ("email", VStr (LoginRequest.email req))]
           | None => Raised (KeyError "_id")
           end.
Proof.
  intros Hin0 Hc0.
  unfold answer, login, bindH, lift, Mongo.find_one.
  destruct (List.find _ (collection "user" w)) as [u|] eqn:Hf.
  - apply find_Some_elem in Hf as [Hin Hm]. apply matches_credentials in Hm.
    exists u. split; [done|]. split; [done|].
    unfold Py.truthy_opt_dict. rewrite (get_nonempty _ _ _ (proj1 Hm)).
    cbn [negb]. change (default [] (Some u)) with u. unfold subscript, pure, throw.
    destruct (Dict.get "_id" u) as [v|]; cbn [fst]; [|done].
    unfold get_or_none at 2. by rewrite (proj1 Hm).
  - apply matches_credentials in Hc0.
    by rewrite (find_None_elem _ _ Hf d0 Hin0) in Hc0.
Qed.

Lemma login_answers_for_matching_user_witness :
  ∃ d, d ∈ users Fixture.one_user
       ∧ has_credentials "ann@example.org" "s3cret" d
       ∧ answer (login Fixture.ann_login) Fixture.one_user
         = match Dict.get "_id" d with
           | Some v => Replied [("id", VStr (Py.str v));
                                ("name", get_or_none d "name");
                                ("email", VStr "ann@example.org")]
           | None => Raised (KeyError "_id")
           end.
Proof.
  apply (login_answers_for_matching_user Fixture.one_user Fixture.ann_login
           (enrolled 0%N "Ann" "ann@example.org" "s3cret")).
  - vm_compute. left.
  - split; reflexivity.
Defined.

(** X6. Register, then log in.  After a registration of a new address that
    [EmailStr] keeps as written, login with that address answers what the
    registration answered when the password is the registered one, and is
    refused with status 401 for any other password. *)
Theorem register_then_login `{EmailStr}
    (w : Store) (req : RegisterRequest.t) (password : string) :
  (∀ d, d ∈ users w → Dict.get "email" d ≠ Some (VStr (RegisterRequest.email req))) →
  validate_email (RegisterRequest.email req) = Some (RegisterRequest.email req) →
  answer (login {| LoginRequest.email := RegisterRequest.email req;
                   LoginRequest.password := password |})
    (thereafter (register req) w)
  = if String.eqb password (RegisterRequest.password req)
    then answer (register req) w
    else Raised (Http {| status_code := 401; detail := "Invalid credentials" |}).
Proof.
  intros Hfree Hok. unfold answer, thereafter.
  rewrite (register_fresh req w _ Hfree Hok). cbn [fst snd].
  unfold login, bindH, lift, Mongo.find_one. cbn [LoginRequest.email LoginRequest.password].
  change (collection "user" ?s) with (users s). rewrite users_after_insert.
  assert (Hold : ∀ y, y ∈ users w →
            Mongo.matches [("email", VStr (RegisterRequest.email req));
                           ("hashed_password", VStr password)] y = false).
  { intros y Hy. apply not_true_is_false. intros Hm.
    apply matches_credentials in Hm as [He _]. by destruct (Hfree y Hy). }
  destruct (String.eqb_spec password (RegisterRequest.password req)) as [->|Hne].
  - rewrite find_app_last; [done|exact Hold|].
    apply matches_credentials. by split.
  - rewrite find_all_false; [done|].
    intros y Hy. apply elem_of_app in Hy as [Hy|Hy]; [by apply Hold|].
    apply list_elem_of_singleton in Hy as ->.
    apply not_true_is_false. intros Hm.
    apply matches_credentials in Hm as [_ Hp]. cbn in Hp. congruence.
Qed.

Lemma register_then_login_witness :
  answer (login {| LoginRequest.email := "ann@example.org";
                   LoginRequest.password := "s3cret" |})
    (thereafter (@register Fixture.as_written Fixture.ann) empty_store)
  = (if String.eqb "s3cret" "s3cret"
     then answer (@register Fixture.as_written Fixture.ann) empty_store
     else Raised (Http {| status_code := 401; detail := "Invalid credentials" |})).
Proof.
  apply (@register_then_login Fixture.as_written empty_store Fixture.ann "s3cret").
  - intros d Hd. vm_compute in Hd. by apply elem_of_nil in Hd.
  - reflexivity.
Defined.




(** X8. The look-up of [register] is made with the address as requested,
    the record is stored with the address as checked.  So when [EmailStr]
    accepts an address in a form other than the requested one, the very same
    registration succeeds twice in a row, and two stored users end up with
    the same address. *)
Theorem register_twice_when_address_is_rewritten `{EmailStr}
    (w : Store) (req : RegisterRequest.t) (checked : string) :
  (∀ d, d ∈ users w → Dict.get "email" d ≠ Some (VStr (RegisterRequest.email req))) →
  validate_email (RegisterRequest.email req) = Some checked →
  checked ≠ RegisterRequest.email req →
  ∃ id1 id2 a b,
    answer (register req) w
    = Replied [("id", VStr id1); ("name", VStr (RegisterRequest.name req));
               ("email", VStr (RegisterRequest.email req))]
    ∧ answer (register req) (thereafter (register req) w)
      = Replied [("id", VStr id2); ("name", VStr (RegisterRequest.name req));
                 ("email", VStr (RegisterRequest.email req))]
    ∧ users (thereafter (register req) (thereafter (register req) w)) = users w ++ [a; b]
    ∧ a ≠ b
    ∧ Dict.get "email" a = Some (VStr checked)
    ∧ Dict.get "email" b = Some (VStr checked).
Proof.
  intros Hfree Hok Hne.
  set (w1 := thereafter (register req) w).
  assert (Hw1 : users w1 = users w
                           ++ [enrolled (next_id w) (RegisterRequest.name req) checked
                                 (RegisterRequest.password req)]).
  { unfold w1, thereafter. rewrite (register_fresh req w checked Hfree Hok).
    cbn [snd]. apply users_after_insert. }
  assert (Hn1 : next_id w1 = N.succ (next_id w)).
  { unfold w1, thereafter. by rewrite (register_fresh req w checked Hfree Hok). }
  assert (Hfree1 : ∀ d, d ∈ users w1 →
                        Dict.get "email" d ≠ Some (VStr (RegisterRequest.email req))).
  { intros d Hd. rewrite Hw1 in Hd. apply elem_of_app in Hd as [Hd|Hd]; [by apply Hfree|].
    apply list_elem_of_singleton in Hd as ->. cbn. congruence. }
  eexists _, _, _, _. unfold answer, thereafter.
  rewrite (register_fresh req w1 checked Hfree1 Hok).
  unfold w1 at 1. unfold thereafter. rewrite (register_fresh req w checked Hfree Hok).
  cbn [fst snd]. split; [done|]. split; [done|].
  rewrite users_after_insert, Hw1, Hn1, <-app_assoc. split; [done|].
  split; [|done]. intros [= Hid]. lia.
Qed.

Lemma register_twice_when_address_is_rewritten_witness :
  ∃ id1 id2 a b,
    answer (@register Fixture.folding
              {| RegisterRequest.name := "Ann"; RegisterRequest.email := "Ann@example.org";
                 RegisterRequest.password := "s3cret" |}) empty_store
    = Replied [("id", VStr id1); ("name", VStr "Ann"); ("email", VStr "Ann@example.org")]
    ∧ answer (@register Fixture.folding
                {| RegisterRequest.name := "Ann"; RegisterRequest.email := "Ann@example.org";
                   RegisterRequest.password := "s3cret" |})
        (thereafter (@register Fixture.folding
                       {| RegisterRequest.name := "Ann";
                          RegisterRequest.email := "Ann@example.org";
                          RegisterRequest.password := "s3cret" |}) empty_store)
      = Replied [("id", VStr id2); ("name", VStr "Ann"); ("email", VStr "Ann@example.org")]
    ∧ users (thereafter (@register Fixture.folding
                           {| RegisterRequest.name := "Ann";
                              RegisterRequest.email := "Ann@example.org";
                              RegisterRequest.password := "s3cret" |})
               (thereafter (@register Fixture.folding
                              {| RegisterRequest.name := "Ann";
                                 RegisterRequest.email := "Ann@example.org";
                                 RegisterRequest.password := "s3cret" |}) empty_store))
      = users empty_store ++ [a; b]
    ∧ a ≠ b
    ∧ Dict.get "email" a = Some (VStr "ann@example.org")
    ∧ Dict.get "email" b = Some (VStr "ann@example.org").
Proof.
  apply (@register_twice_when_address_is_rewritten Fixture.folding empty_store
           {| RegisterRequest.name := "Ann"; RegisterRequest.email := "Ann@example.org";
              RegisterRequest.password := "s3cret" |} "ann@example.org").
  - intros d Hd. vm_compute in Hd. by apply elem_of_nil in Hd.
  - reflexivity.
  - discriminate.
Defined.

(** * Seeding and listing the services *)

Lemma seed_services_stocked (w : Store) :
  services w ≠ [] →
  seed_services w
  = (Return [("seeded", VBool false)],
     {| db := db w; next_id := next_id w; log := log w ++ [Read "service"] |}).
Proof.
  intros Hne. unfold seed_services, bind, count_documents.
  change (collection "service" w) with (services w). rewrite filter_no_filter.
  destruct (services w) as [|s l]; [done|].
  by replace (Z.of_nat (length (s :: l)) =? 0) with false
    by (symmetry; apply Z.eqb_neq; simpl length; lia).
Qed.

Lemma seed_services_empty (w : Store) :
  services w = [] →
  seed_services w
  = (Return [("seeded", VBool true); ("count", VInt 2)],
     {| db := <["service" :=
                  [[("_id", VObjectId (next_id w)); ("title", VStr "Behavior Consultation");
                    ("description", VStr "Initial consultation");
                    ("price_cents", VInt 15000); ("duration_minutes", VInt 60)];
                   [("_id", VObjectId (N.succ (next_id w))); ("title", VStr "Therapy Session");
                    ("description", VStr "Follow-up therapy");
                    ("price_cents", VInt 9000); ("duration_minutes", VInt 45)]]]> (db w);
        next_id := N.succ (N.succ (next_id w));
        log := ((log w ++ [Read "service"]) ++ [Write "service"]) ++ [Write "service"] |}).
Proof.
  intros Hempty. unfold seed_services, bind, count_documents.
  change (collection "service" w) with (services w). rewrite filter_no_filter, Hempty.
  cbn [length for_each].
  unfold create_document, bind, Mongo.insert_one, ret. cbn [fst snd db next_id log].
  change (Z.of_nat 0 =? 0) with true. cbv beta iota. cbn [db next_id log].
  rewrite collection_after_insert.
  change (collection "service" {| db := db w; next_id := next_id w;
                                  log := log w ++ [Read "service"] |})
    with (services w).
  rewrite Hempty. by rewrite insert_insert_eq.
Qed.

(** X9. Seeding a catalogue that already holds a service stores nothing: the
    answer is [{"seeded": False}] and the stored data stay as they were. *)
Theorem seed_services_keeps_stocked_catalogue (w : Store) :
  services w ≠ [] →
  outcome seed_services w = Return [("seeded", VBool false)]
  ∧ same_data w (after seed_services w).
Proof.
  intros Hne. unfold outcome, after. by rewrite seed_services_stocked.
Qed.

Lemma seed_services_keeps_stocked_catalogue_witness :
  outcome seed_services (after seed_services empty_store) = Return [("seeded", VBool false)]
  ∧ same_data (after seed_services empty_store)
      (after seed_services (after seed_services empty_store)).
Proof.
  apply (seed_services_keeps_stocked_catalogue (after seed_services empty_store)).
  vm_compute. discriminate.
Defined.

(** X10. Seeding an empty catalogue stores the two default services, each
    under an identity of its own, and answers with [seeded] true and a count
    that is the number of services now stored. *)
Theorem seed_services_fills_empty_catalogue (w : Store) :
  services w = [] →
  outcome seed_services w
  = Return [("seeded", VBool true);
            ("count", VInt (Z.of_nat (length (services (after seed_services w)))))]
  ∧ List.map (Dict.get "title") (services (after seed_services w))
    = [Some (VStr "Behavior Consultation"); Some (VStr "Therapy Session")]
  ∧ List.map (Dict.get "price_cents") (services (after seed_services w))
    = [Some (VInt 15000); Some (VInt 9000)]
  ∧ List.map (Dict.get "_id") (services (after seed_services w))
    = [Some (VObjectId (next_id w)); Some (VObjectId (N.succ (next_id w)))].
Proof.
  intros Hempty. unfold outcome, after. rewrite seed_services_empty by done.
  cbn [fst snd]. unfold services. by rewrite collection_after_insert.
Qed.

Lemma seed_services_fills_empty_catalogue_witness :
  outcome seed_services Sample.one_booked
  = Return [("seeded", VBool true);
            ("count", VInt (Z.of_nat (length (services (after seed_services
                                                          Sample.one_booked)))))]
  ∧ List.map (Dict.get "title") (services (after seed_services Sample.one_booked))
    = [Some (VStr "Behavior Consultation"); Some (VStr "Therapy Session")]
  ∧ List.map (Dict.get "price_cents") (services (after seed_services Sample.one_booked))
    = [Some (VInt 15000); Some (VInt 9000)]
  ∧ List.map (Dict.get "_id") (services (after seed_services Sample.one_booked))
    = [Some (VObjectId (next_id Sample.one_booked));
       Some (VObjectId (N.succ (next_id Sample.one_booked)))].
Proof.
  apply (seed_services_fills_empty_catalogue Sample.one_booked). reflexivity.
Defined.

(** X11. Seeding is idempotent on the stored documents: a second seeding
    right after a first changes no collection.  After a seeding the
    catalogue is never empty, and seeding leaves every collection other than
    the services as it was. *)
Theorem seed_services_idempotent (w : Store) :
  db (after seed_services (after seed_services w)) = db (after seed_services w)
  ∧ services (after seed_services w) ≠ []
  ∧ ∀ name, name ≠ "service" → db (after seed_services w) !! name = db w !! name.
Proof.
  assert (Hfilled : services (after seed_services w) ≠ []).
  { unfold after. destruct (services w) as [|s l] eqn:Hs.
    - rewrite seed_services_empty by done. cbn [snd].
      unfold services. by rewrite collection_after_insert.
    - rewrite seed_services_stocked by (by rewrite Hs). cbn [snd].
      change (services w ≠ []). by rewrite Hs. }
  split; [|split; [done|]].
  - unfold after at 1. by rewrite seed_services_stocked.
  - intros name Hname. unfold after. destruct (services w) as [|s l] eqn:Hs.
    + rewrite seed_services_empty by done. cbn [snd db]. by rewrite lookup_insert_ne.
    + by rewrite seed_services_stocked by (by rewrite Hs).
Qed.

(** * Orders *)

Lemma list_orders_eval (u : string) (w : Store) :
  list_orders u w
  = (Return (List.map to_public (List.filter (user_is u) (orders w))),
     {| db := db w; next_id := next_id w; log := log w ++ [Read "order"] |}).
Proof.
  unfold list_orders, get_documents, bind, Mongo.find. cbn [fst snd].
  change (collection "order" w) with (orders w). by rewrite filter_by_user.
Qed.

(** X12. Listing the orders of a user returns exactly the stored orders
    whose [user_id] field equals the given value, in stored order and in
    their public form.  There is no special case: for the empty string the
    listing holds the orders whose [user_id] is the empty string and no
    other. *)
Theorem list_orders_filters_every_user_id (w : Store) (u : string) :
  outcome (list_orders u) w
  = Return (List.map to_public (List.filter (user_is u) (orders w)))
  ∧ (∀ r, r ∈ List.map to_public (List.filter (user_is u) (orders w))
          ↔ ∃ d, d ∈ orders w ∧ Dict.get "user_id" d = Some (VStr u) ∧ r = to_public d)
  ∧ (List.filter (user_is "") (orders w) = [] → outcome (list_orders "") w = Return []).
Proof.
  unfold outcome. rewrite !list_orders_eval. split; [done|]. split.
  - intros r. rewrite list_elem_of_In, in_map_iff. split.
    + intros (d & <- & Hd). apply filter_In in Hd as [Hd Hu].
      exists d. by rewrite list_elem_of_In, <-user_is_spec.
    + intros (d & Hd & Hu & ->). exists d. split; [done|].
      apply filter_In. by rewrite <-list_elem_of_In, user_is_spec.
  - intros Hnone. cbn [fst]. by rewrite Hnone.
Qed.

Lemma list_orders_filters_every_user_id_witness :
  outcome (list_orders "") Fixture.one_order = Return []
  ∧ orders Fixture.one_order ≠ [].
Proof.
  destruct (list_orders_filters_every_user_id Fixture.one_order "") as (_ & _ & Hnone).
  split; [apply Hnone; reflexivity|]. vm_compute. discriminate.
Defined.

Lemma create_checkout_eval (req : CheckoutRequest.t) (w : Store) :
  create_checkout req w
  = (Return [("order_id", VStr (Py.str (VObjectId (next_id w))));
             ("amount_cents", VInt (sum_of_items (CheckoutRequest.items req)));
             ("stripe_checkout_url", VNone)],
     {| db := <["order" :=
                  orders w
                  ++ [("_id", VObjectId (next_id w))
                      :: model_dump (Order.new (CheckoutRequest.user_id req)
                                       (CheckoutRequest.items req)
                                       (sum_of_items (CheckoutRequest.items req)))]]> (db w);
        next_id := N.succ (next_id w);
        log := log w ++ [Write "order"] |}).
Proof.
  unfold create_checkout, create_document, bind, Mongo.insert_one.
  by rewrite sum_prices.
Qed.

Lemma user_is_refl_iff (u u' : string) (doc : dict) :
  Dict.get "user_id" doc = Some (VStr u) → user_is u' doc = String.eqb u u'.
Proof. intros Hu. unfold user_is. by rewrite Hu. Qed.

(** X13. Check out, then list.  The order a checkout stores shows up last
    in the listing of the orders of its user, under the identity and with
    the amount the checkout answered, pending and unpaid; the listings of
    all other users are what they were. *)
Theorem checkout_then_list_orders (w : Store) (req : CheckoutRequest.t) :
  ∃ (order_id : string) (r : dict),
    outcome (create_checkout req) w
    = Return [("order_id", VStr order_id);
              ("amount_cents", VInt (sum_of_items (CheckoutRequest.items req)));
              ("stripe_checkout_url", VNone)]
    ∧ outcome (list_orders (CheckoutRequest.user_id req)) (after (create_checkout req) w)
      = Return (List.map to_public
                  (List.filter (user_is (CheckoutRequest.user_id req)) (orders w))
                ++ [r])
    ∧ Dict.get "id" r = Some (VStr order_id)
    ∧ Dict.get "_id" r = None
    ∧ Dict.get "amount_cents" r
      = Some (VInt (sum_of_items (CheckoutRequest.items req)))
    ∧ Dict.get "status" r = Some (VStr "pending")
    ∧ Dict.get "paid_at" r = Some VNone
    ∧ ∀ u, u ≠ CheckoutRequest.user_id req →
           outcome (list_orders u) (after (create_checkout req) w)
           = outcome (list_orders u) w.
Proof.
  set (doc := ("_id", VObjectId (next_id w))
              :: model_dump (Order.new (CheckoutRequest.user_id req)
                               (CheckoutRequest.items req)
                               (sum_of_items (CheckoutRequest.items req)))).
  assert (Huser : Dict.get "user_id" doc = Some (VStr (CheckoutRequest.user_id req)))
    by done.
  assert (Hafter : ∀ u, outcome (list_orders u) (after (create_checkout req) w)
                        = Return (List.map to_public
                                    (List.filter (user_is u) (orders w ++ [doc])))).
  { intros u. unfold outcome, after. rewrite create_checkout_eval, list_orders_eval.
    cbn [fst snd]. unfold orders at 1. by rewrite collection_after_insert. }
  exists (Py.str (VObjectId (next_id w))), (to_public doc).
  split; [unfold outcome; by rewrite create_checkout_eval|].
  split.
  { rewrite Hafter, List.filter_app, List.map_app. cbn [List.filter].
    by rewrite (user_is_refl_iff _ _ _ Huser), String.eqb_refl. }
  destruct (to_public_identity doc (VObjectId (next_id w))) as [Hid Hnoid]; [done|].
  split; [done|]. split; [done|].
  split; [by rewrite to_public_field|].
  split; [by rewrite to_public_field|].
  split; [by rewrite to_public_field|].
  intros u Hu. rewrite Hafter, List.filter_app. cbn [List.filter].
  rewrite (user_is_refl_iff _ _ _ Huser).
  destruct (String.eqb_spec (CheckoutRequest.user_id req) u) as [Heq|_];
    [by destruct Hu|].
  rewrite app_nil_r. unfold outcome. by rewrite list_orders_eval.
Qed.

(** X14. Book, then list.  After a successful booking by a user whose id is
    not the empty string, the listing of that user's appointments is the
    earlier listing followed by the new appointment, which carries the
    identity the booking answered, the requested start and the status
    "scheduled". *)
Theorem booking_then_listing (w : Store) (req : CreateAppointmentRequest.t) :
  (∀ d, d ∈ appointments w →
        Dict.get "start_time_iso" d
        ≠ Some (VStr (CreateAppointmentRequest.start_time_iso req))) →
  CreateAppointmentRequest.user_id req ≠ "" →
  ∃ (id : string) (r : dict),
    outcome (create_appointment req) w = Return [("id", VStr id)]
    ∧ outcome (list_appointments (Some (CreateAppointmentRequest.user_id req)))
        (after (create_appointment req) w)
      = Return (List.map to_public
                  (List.filter (user_is (CreateAppointmentRequest.user_id req))
                     (appointments w))
                ++ [r])
    ∧ Dict.get "id" r = Some (VStr id)
    ∧ Dict.get "user_id" r = Some (VStr (CreateAppointmentRequest.user_id req))
    ∧ Dict.get "start_time_iso" r
      = Some (VStr (CreateAppointmentRequest.start_time_iso req))
    ∧ Dict.get "status" r = Some (VStr "scheduled").
Proof.
  intros Hfree Huser.
  exists (Py.str (VObjectId (next_id w))), (to_public (booked (next_id w) req)).
  unfold outcome, after. rewrite create_appointment_free by exact Hfree.
  cbn [fst snd]. split; [done|]. split.
  { rewrite list_appointments_filtered by done. cbn [fst].
    rewrite appointments_after_insert, List.filter_app, List.map_app. cbn [List.filter].
    rewrite (user_is_refl_iff (CreateAppointmentRequest.user_id req)) by done.
    by rewrite String.eqb_refl. }
  destruct (to_public_identity (booked (next_id w) req) (VObjectId (next_id w)))
    as [Hid _]; [done|].
  split; [done|]. by rewrite !to_public_field.
Qed.

Lemma booking_then_listing_witness :
  ∃ (id : string) (r : dict),
    outcome (create_appointment (Sample.request "bob" Sample.ten_and_a_second 60))
      Sample.one_booked
    = Return [("id", VStr id)]
    ∧ outcome (list_appointments (Some "bob"))
        (after (create_appointment (Sample.request "bob" Sample.ten_and_a_second 60))
           Sample.one_booked)
      = Return (List.map to_public
                  (List.filter (user_is "bob") (appointments Sample.one_booked))
                ++ [r])
    ∧ Dict.get "id" r = Some (VStr id)
    ∧ Dict.get "user_id" r = Some (VStr "bob")
    ∧ Dict.get "start_time_iso" r = Some (VStr "2024-01-01T10:00:01")
    ∧ Dict.get "status" r = Some (VStr "scheduled").
Proof.
  apply (booking_then_listing Sample.one_booked
           (Sample.request "bob" Sample.ten_and_a_second 60)).
  - intros d Hd. vm_compute in Hd. apply list_elem_of_singleton in Hd as ->.
    vm_compute. discriminate.
  - discriminate.
Defined.

Lemma sum_of_items_perm (items items' : list OrderItem.t) :
  items ≡ₚ items' → sum_of_items items = sum_of_items items'.
Proof.
  induction 1 as [|x l l' _ IH|x y l|l l' l'' _ IH1 _ IH2]; simpl; lia.
Qed.

(** X15. The amount of a checkout does not depend on the order of the
    items: two checkouts whose item lists are permutations of each other get
    the same answer, amount included, from the same store. *)
Theorem checkout_amount_ignores_item_order (w : Store) (r1 r2 : CheckoutRequest.t) :
  CheckoutRequest.items r1 ≡ₚ CheckoutRequest.items r2 →
  outcome (create_checkout r1) w = outcome (create_checkout r2) w.
Proof.
  intros Hperm. unfold outcome. rewrite !create_checkout_eval. cbn [fst].
  by rewrite (sum_of_items_perm _ _ Hperm).
Qed.

Lemma checkout_amount_ignores_item_order_witness :
  outcome (create_checkout Sample.basket) empty_store
  = outcome (create_checkout
               {| CheckoutRequest.user_id := "ann";
                  CheckoutRequest.items := rev (CheckoutRequest.items Sample.basket) |})
      empty_store.
Proof.
  apply (checkout_amount_ignores_item_order empty_store Sample.basket
           {| CheckoutRequest.user_id := "ann";
              CheckoutRequest.items := rev (CheckoutRequest.items Sample.basket) |}).
  vm_compute. apply perm_swap.
Defined.

(** X16. A checkout reads nothing and refuses nothing: whatever the user and
    the items, it answers, and all it does to the store is one insert into
    the orders.  Every other collection and every order stored before are
    left as they were. *)
Theorem checkout_only_inserts_an_order (w : Store) (req : CheckoutRequest.t) :
  (∃ r, outcome (create_checkout req) w = Return r)
  ∧ log (after (create_checkout req) w) = log w ++ [Write "order"]
  ∧ (∀ name, name ≠ "order" → db (after (create_checkout req) w) !! name = db w !! name)
  ∧ (∀ i doc, orders w !! i = Some doc →
              orders (after (create_checkout req) w) !! i = Some doc)
  ∧ length (orders (after (create_checkout req) w)) = S (length (orders w)).
Proof.
  unfold outcome, after. rewrite create_checkout_eval. cbn [fst snd log db].
  split; [by eexists|]. split; [done|]. split; [|split].
  - intros name Hname. by rewrite lookup_insert_ne.
  - intros i doc Hi. unfold orders at 1. rewrite collection_after_insert.
    by apply lookup_app_l_Some.
  - unfold orders at 1. rewrite collection_after_insert, length_app. simpl. lia.
Qed.

(** * More on the public form *)

Lemma datetime_to_iso_idem (v : value) :
  datetime_to_iso (datetime_to_iso v) = datetime_to_iso v.
Proof. by destruct v. Qed.

Lemma map_values_idem (d : dict) :
  Dict.map_values datetime_to_iso (Dict.map_values datetime_to_iso d)
  = Dict.map_values datetime_to_iso d.
Proof.
  unfold Dict.map_values. rewrite List.map_map. apply List.map_ext.
  intros [k v]. by rewrite datetime_to_iso_idem.
Qed.

Lemma set_nonempty (k : string) (v : value) (d : dict) :
  Py.truthy_dict (Dict.set k v d) = true.
Proof. destruct d as [|[j x] d]; simpl; [done|]. by destruct (String.eqb j k). Qed.

Lemma map_values_truthy (f : value → value) (d : dict) :
  Py.truthy_dict (Dict.map_values f d) = Py.truthy_dict d.
Proof. by destruct d as [|[k v] d]. Qed.

(** X17. The public form is stable: making a record public a second time
    changes nothing. *)
Theorem to_public_idempotent (doc : dict) :
  to_public (to_public doc) = to_public doc.
Proof.
  destruct (Py.truthy_dict doc) eqn:Hd.
  - destruct (Dict.get "_id" doc) as [v|] eqn:Hid.
    + assert (E : to_public doc
                  = Dict.map_values datetime_to_iso
                      (Dict.set "id" (VStr (Py.str v)) (Dict.remove "_id" doc)))
        by (unfold to_public; by rewrite Hd, Hid).
      rewrite E. unfold to_public.
      rewrite map_values_truthy, set_nonempty. cbn [negb].
      rewrite get_map_values, get_set_ne, get_remove_eq by done.
      apply map_values_idem.
    + assert (E : to_public doc = Dict.map_values datetime_to_iso doc)
        by (unfold to_public; by rewrite Hd, Hid).
      rewrite E. unfold to_public.
      rewrite map_values_truthy, Hd. cbn [negb].
      rewrite get_map_values, Hid.
      apply map_values_idem.
  - assert (E : to_public doc = doc) by (unfold to_public; by rewrite Hd).
    by rewrite !E.
Qed.

(** X18. The public form touches nothing but the identity and the datetimes
    at the top of a record.  A field other than [id] and [_id] whose value
    is not itself a datetime comes out as stored, also when it is a list or
    a sub-document with datetimes inside; and no field other than [id] is
    added. *)
Theorem to_public_keeps_other_fields (doc : dict) (k : string) :
  k ≠ "id" → k ≠ "_id" →
  (∀ v, Dict.get k doc = Some v → Py.is_datetime v = false →
        Dict.get k (to_public doc) = Some v)
  ∧ (Dict.get k doc = None → Dict.get k (to_public doc) = None).
Proof.
  intros Hk Hk'. rewrite to_public_field by done. split.
  - intros v -> Hv. by destruct v.
  - by intros ->.
Qed.

Lemma to_public_keeps_other_fields_witness :
  Dict.get "history"
    (to_public [("_id", VObjectId 3);
                ("history", VList [VDatetime {| year := 2024; month := 1; day := 1; hour := 9;
                                                minute := 30; second := 0;
                                                microsecond := 0 |}])])
  = Some (VList [VDatetime {| year := 2024; month := 1; day := 1; hour := 9;
                              minute := 30; second := 0; microsecond := 0 |}]).
Proof.
  apply (to_public_keeps_other_fields
           [("_id", VObjectId 3);
            ("history", VList [VDatetime {| year := 2024; month := 1; day := 1; hour := 9;
                                            minute := 30; second := 0;
                                            microsecond := 0 |}])]
           "history"); [discriminate|discriminate|reflexivity|reflexivity].
Defined.

(** * Listings only read *)

(** X19. The three listings never write.  Each answers, reads its own
    collection once and leaves the stored data as they were; the listing of
    the services returns every stored service in its public form. *)
Theorem listings_only_read (w : Store) (user_id : option string) (u : string) :
  (same_data w (after (list_appointments user_id) w)
   ∧ log (after (list_appointments user_id) w) = log w ++ [Read "appointment"])
  ∧ (same_data w (after (list_orders u) w)
     ∧ log (after (list_orders u) w) = log w ++ [Read "order"])
  ∧ (same_data w (after list_services w)
     ∧ log (after list_services w) = log w ++ [Read "service"]
     ∧ outcome list_services w = Return (List.map to_public (services w))).
Proof.
  split; [|split].
  - unfold after. destruct (Py.truthy_opt_str user_id) eqn:Hu.
    + destruct user_id as [[|c s]|]; try discriminate.
      by rewrite list_appointments_filtered.
    + by rewrite list_appointments_unfiltered.
  - unfold after. by rewrite list_orders_eval.
  - unfold after, outcome, list_services, get_documents, bind, Mongo.find.
    cbn [fst snd]. change (collection "service" w) with (services w).
    by rewrite filter_no_filter.
Qed.

(** * Registration and login, continued *)

(** X20. A user registered under an address that [EmailStr] stores in
    another form cannot log in with the address as it was typed: whatever
    the password, login is refused with status 401. *)
Theorem login_fails_with_address_as_typed `{EmailStr}
    (w : Store) (req : RegisterRequest.t) (checked password : string) :
  (∀ d, d ∈ users w → Dict.get "email" d ≠ Some (VStr (RegisterRequest.email req))) →
  validate_email (RegisterRequest.email req) = Some checked →
  checked ≠ RegisterRequest.email req →
  answer (login {| LoginRequest.email := RegisterRequest.email req;
                   LoginRequest.password := password |})
    (thereafter (register req) w)
  = Raised (Http {| status_code := 401; detail := "Invalid credentials" |}).
Proof.
  intros Hfree Hok Hne.
  apply login_refuses_iff_no_match. cbn [LoginRequest.email LoginRequest.password].
  unfold thereafter. rewrite (register_fresh req w checked Hfree Hok). cbn [snd].
  intros d Hd [He _]. rewrite users_after_insert in Hd.
  apply elem_of_app in Hd as [Hd|Hd]; [by destruct (Hfree d Hd)|].
  apply list_elem_of_singleton in Hd as ->. cbn in He. congruence.
Qed.

Lemma login_fails_with_address_as_typed_witness :
  answer (login {| LoginRequest.email := "Ann@example.org";
                   LoginRequest.password := "s3cret" |})
    (thereafter (@register Fixture.folding
                   {| RegisterRequest.name := "Ann";
                      RegisterRequest.email := "Ann@example.org";
                      RegisterRequest.password := "s3cret" |}) empty_store)
  = Raised (Http {| status_code := 401; detail := "Invalid credentials" |}).
Proof.
  apply (@login_fails_with_address_as_typed Fixture.folding empty_store
           {| RegisterRequest.name := "Ann"; RegisterRequest.email := "Ann@example.org";
              RegisterRequest.password := "s3cret" |} "ann@example.org" "s3cret").
  - intros d Hd. vm_compute in Hd. by apply elem_of_nil in Hd.
  - reflexivity.
  - discriminate.
Defined.

Lemma register_keeps_identified `{EmailStr} (req : RegisterRequest.t) (w : Store) :
  (∀ d, d ∈ users w → is_Some (Dict.get "_id" d)) →
  ∀ d, d ∈ users (thereafter (register req) w) → is_Some (Dict.get "_id" d).
Proof.
  intros Hid. unfold thereafter.
  destruct (find_email_dec (RegisterRequest.email req) w) as [Hk|Hf].
  - rewrite register_known by done. exact Hid.
  - destruct (validate_email (RegisterRequest.email req)) as [c|] eqn:Hv.
    + rewrite (register_fresh req w c Hf Hv). cbn [snd].
      intros d Hd. rewrite users_after_insert in Hd.
      apply elem_of_app in Hd as [Hd|Hd]; [by apply Hid|].
      apply list_elem_of_singleton in Hd as ->. by eexists.
    + rewrite register_refused_address by done. exact Hid.
Qed.

(** X21. The subscript [user["_id"]] of login cannot fail on users that
    registrations stored: from a store whose users all carry an [_id], and
    so from the empty store, no sequence of registrations leads to a login
    that raises [KeyError]. *)
Theorem login_never_raises_key_error `{EmailStr}
    (w : Store) (reqs : list RegisterRequest.t) (req : LoginRequest.t) (k : string) :
  (∀ d, d ∈ users w → is_Some (Dict.get "_id" d)) →
  answer (login req) (enroll reqs w) ≠ Raised (KeyError k).
Proof.
  revert w. induction reqs as [|r reqs IH]; intros w Hid; simpl.
  - unfold answer, login, bindH, lift, Mongo.find_one.
    destruct (List.find _ (collection "user" w)) as [u|] eqn:Hf.
    + apply find_Some_elem in Hf as [Hin Hm]. apply matches_credentials in Hm.
      unfold Py.truthy_opt_dict. rewrite (get_nonempty _ _ _ (proj1 Hm)).
      cbn [negb]. change (default [] (Some u)) with u. unfold subscript, pure, throw.
      destruct (Hid u Hin) as [v ->]. done.
    + done.
  - apply IH. by apply register_keeps_identified.
Qed.

Lemma login_never_raises_key_error_witness :
  answer (login Fixture.ann_login)
    (@enroll Fixture.as_written [Fixture.ann; Fixture.ann_again] empty_store)
  ≠ Raised (KeyError "_id").
Proof.
  apply (@login_never_raises_key_error Fixture.as_written empty_store
           [Fixture.ann; Fixture.ann_again] Fixture.ann_login "_id").
  intros d Hd. vm_compute in Hd. by apply elem_of_nil in Hd.
Defined.
